(** * NetCfgDevice: the D-Bus object of one virtual network device

    A shallow embedding of [src/netcfg/netcfg-device.hpp]
    (openvpn3-linux, net.openvpn.v3.netcfg service) and the properties
    of its method and property callbacks.

    The C++ class keeps a raw pointer to a shared [DNS::ResolverSettings]
    object.  Resolver objects live in a store indexed by their address;
    a device holds an optional address.  Calls made on collaborators
    (the resolver, GLib, the logger, the D-Bus object base class) are
    recorded, in program order, in a list of events. *)

From Stdlib Require Import String List Bool Arith NArith ZArith Lia.
Import ListNotations.
Local Open Scope string_scope.
Local Open Scope list_scope.

(** ** Data *)

Definition uid_t := N.

(** Address of a [DNS::ResolverSettings] object. *)
Definition handle := nat.

Inductive NetCfgDeviceType :=
| UNSET   (* Primarily to avoid 0 but still have 0 defined *)
| TUN
| TAP.

(** The GVariant values that cross the D-Bus boundary of this object. *)
Inductive GVariant :=
| GVBoolean (b : bool)
| GVUInt32 (n : N)
| GVString (s : string)
| GVStrv (l : list string)
| GVUInt32v (l : list N)
| GVAddress (ip_address : string) (prefix : N)             (* (su) *)
| GVRoutes (route_target : list string) (gateway : string) (* (ass) *).

(** Members of [class NetCfgDevice] (with the owner and access list of
    its [DBusCredentials] base, the object path of its [DBusObject] base
    and the log level kept by its [NetCfgSignals] member). *)
Record NetCfgDevice := mkNetCfgDevice {
  objpath : string;
  owner : uid_t;
  acl : list uid_t;
  device_type : NetCfgDeviceType;
  device_name : string;
  dns_servers : list string;
  dns_search : list string;
  mtu : N;
  log_level : N;
  resolver : option handle;
  active : bool
}.

(** What [g_dbus_connection_get_capabilities(conn)] reports. *)
Record GDBusConnection := mkConn {
  unix_fd_passing : bool
}.

(** ** The resolver collaborator *)

(** The calls a device makes on its resolver. *)
Inductive resolver_call :=
| CallIncDeviceCount
| CallDecDeviceCount
| CallApply
| CallRestore
| CallAddDNSServers (params : GVariant)
| CallRemoveDNSServers (params : GVariant)
| CallAddDNSSearch (params : GVariant)
| CallRemoveDNSSearch (params : GVariant).

(** Modelled from the spec: [DNS::ResolverSettings] is declared in
    [./dns-direct-file.hpp], which is not part of the sources.  The class
    below is the interface the device calls.  A call that can fail
    returns the resolver state it leaves behind together with
    [Some what] when it raised a [NetCfgException] whose message is
    [what], the exception class the device catches around [Restore()]. *)
Class ResolverSettings (R : Type) := {
  IncDeviceCount : R -> R;
  DecDeviceCount : R -> R;
  GetDeviceCount : R -> nat;
  GetModified : R -> bool;
  GetDNSServers : R -> list string;
  Apply : R -> R * option string;
  Restore : R -> R * option string;
  AddDNSServers : GVariant -> R -> R * option string;
  RemoveDNSServers : GVariant -> R -> R * option string;
  AddDNSSearch : GVariant -> R -> R * option string;
  RemoveDNSSearch : GVariant -> R -> R * option string
}.

(** The reference counter behaves as a counter and is touched by the
    two counting calls only (spec: [RefCount >= 0], moved by
    [IncRefCount] / [DecRefCount]). *)
Class ResolverCounter (R : Type) `{ResolverSettings R} : Prop := {
  count_Inc : forall r, GetDeviceCount (IncDeviceCount r) = S (GetDeviceCount r);
  count_Dec : forall r, (0 < GetDeviceCount r)%nat ->
    S (GetDeviceCount (DecDeviceCount r)) = GetDeviceCount r;
  count_Apply : forall r, GetDeviceCount (fst (Apply r)) = GetDeviceCount r;
  count_Restore : forall r, GetDeviceCount (fst (Restore r)) = GetDeviceCount r;
  count_AddDNSServers : forall p r,
    GetDeviceCount (fst (AddDNSServers p r)) = GetDeviceCount r;
  count_RemoveDNSServers : forall p r,
    GetDeviceCount (fst (RemoveDNSServers p r)) = GetDeviceCount r;
  count_AddDNSSearch : forall p r,
    GetDeviceCount (fst (AddDNSSearch p r)) = GetDeviceCount r;
  count_RemoveDNSSearch : forall p r,
    GetDeviceCount (fst (RemoveDNSSearch p r)) = GetDeviceCount r
}.

(** ** Exceptions, events, and the environment of a call *)

(** The exception classes that reach the handlers of the callbacks.
    Modelled from the spec: [NetCfgException] is declared outside the
    sources; it is a local exception with a [what()] message (both inner
    handlers log [excp.what()]), so the [std::exception] clause of
    [callback_method_call] is the one that catches it. *)
Inductive exn :=
| DBusCredentialsException (requester : uid_t) (quarkdomain : string) (error : string)
| NetCfgException (what : string)
| DBusPropertyException (property : string) (error : string)
| UnknownException.

Inductive event :=
| EvIdleCheck_UpdateTimestamp
| EvIdleCheck_RefDec
| EvResolver (h : handle) (c : resolver_call)
| EvLogCritical (msg : string)
| EvLogVerb1 (msg : string)
| EvLogVerb2 (msg : string)
| EvFdListNew
| EvFdListAppend (fd : Z)
| EvClose (fd : Z)
| EvReturnValue                              (* g_dbus_method_invocation_return_value(invoc, NULL) *)
| EvReturnValueWithFdList (fds : list Z)     (* ..._return_value_with_unix_fd_list(invoc, nullptr, fdlist) *)
| EvUnrefFdList
| EvSetDBusError (e : exn)                   (* excp.SetDBusError(invoc) *)
| EvReturnGError (name : string) (msg : string)
| EvRemoveObject
| EvRemoveCallback.

(** What the handler asks of the host: the uid behind a bus name, the
    user name behind a uid, whether the system can duplicate a
    descriptor into an fd list, and the value the never initialised
    [GError *error] of the [Establish] branch happens to hold ([true]:
    not null). *)
Record Host := mkHost {
  GetUID : string -> uid_t;
  lookup_username : uid_t -> string;
  g_unix_fd_list_append_ok : Z -> bool;
  error_uninitialised : bool
}.

(** What a call of [g_unix_fd_list_append(fdlist, fd, &error)] did. *)
Inductive append_result :=
| AppendRefused   (* an argument was refused: nothing stored, [error] untouched *)
| Appended        (* the descriptor was duplicated into the list *)
| AppendFailed.   (* the duplication failed: nothing stored, [error] set *)

(** GLib's [g_unix_fd_list_append], called with the uninitialised
    [error] of the [Establish] branch: it returns at once (by
    [g_return_val_if_fail]) for a negative descriptor and for an
    [error] that already holds a value; otherwise it duplicates the
    descriptor, which the system may fail to do. *)
Definition g_unix_fd_list_append (host : Host) (fd : Z) : append_result :=
  if (fd <? 0)%Z || error_uninitialised host then AppendRefused
  else if g_unix_fd_list_append_ok host fd then Appended
  else AppendFailed.

(** ** The monad of a callback: resolver store, event log, exceptions *)

Inductive outcome (A : Type) :=
| Ret (a : A)
| Throw (e : exn)
| Abort.                           (* a failed g_assert *)
Arguments Ret {A} a.
Arguments Throw {A} e.
Arguments Abort {A}.

Section Callbacks.

Context {R : Type} `{ResolverSettings R}.

(** [self] is the object the callback runs on: [None] once [delete this]
    has run. *)
Record state := mkState {
  self : option NetCfgDevice;
  heap : handle -> R
}.

Definition M (A : Type) := state -> outcome A * state * list event.

Definition ret {A} (a : A) : M A := fun s => (Ret a, s, []).

Definition bind {A B} (m : M A) (k : A -> M B) : M B :=
  fun s =>
    match m s with
    | (Ret a, s1, t1) =>
        match k a s1 with
        | (o, s2, t2) => (o, s2, t1 ++ t2)
        end
    | (Throw e, s1, t1) => (Throw e, s1, t1)
    | (Abort, s1, t1) => (Abort, s1, t1)
    end.

Definition throw {A} (e : exn) : M A := fun s => (Throw e, s, []).

Definition emit (e : event) : M unit := fun s => (Ret tt, s, [e]).

Definition g_assert (b : bool) : M unit :=
  fun s => if b then (Ret tt, s, []) else (Abort, s, []).

(** [try { m } catch (const NetCfgException& excp) { k excp.what() }] *)
Definition try_catch_NetCfg (m : M unit) (k : string -> M unit) : M unit :=
  fun s =>
    match m s with
    | (Throw (NetCfgException what), s1, t1) =>
        match k what s1 with
        | (o, s2, t2) => (o, s2, t1 ++ t2)
        end
    | r => r
    end.

Definition update (h : handle) (r : R) (m : handle -> R) : handle -> R :=
  fun h' => if Nat.eqb h h' then r else m h'.

Definition deref (h : handle) : M R := fun s => (Ret (heap s h), s, []).

(** [resolver->op()] for an operation that may raise. *)
Definition resolver_do (h : handle) (c : resolver_call) (op : R -> R * option string)
  : M unit :=
  fun s =>
    let (r', failure) := op (heap s h) in
    let s' := mkState (self s) (update h r' (heap s)) in
    match failure with
    | None => (Ret tt, s', [EvResolver h c])
    | Some what => (Throw (NetCfgException what), s', [EvResolver h c])
    end.

(** [~NetCfgDevice()] followed by the release of the object. *)
Definition delete_this : M unit :=
  fun s => (Ret tt, mkState None (heap s), [EvRemoveCallback; EvIdleCheck_RefDec]).

End Callbacks.

Declare Scope netcfg_scope.
Delimit Scope netcfg_scope with netcfg.
Notation "x <- m ;; k" := (bind m (fun x => k))
  (at level 61, m at next level, right associativity) : netcfg_scope.
Notation "m ;; k" := (bind m (fun _ => k))
  (at level 61, right associativity) : netcfg_scope.
Local Open Scope netcfg_scope.

(** ** The class *)

Section Device.

Context {R : Type} `{ResolverSettings R}.
Variable host : Host.

(** NetCfgDevice::NetCfgDevice: the constructor. *)
Definition NetCfgDevice_new (creator : uid_t) (path : string)
    (devtype : NetCfgDeviceType) (devname : string)
    (res : option handle) (level : N) : @M R NetCfgDevice :=
  let d := mkNetCfgDevice path creator [] devtype devname [] [] 1500%N level res false in
  emit (EvLogVerb2 ("Network device '" ++ devname ++ "' prepared")%string) ;;
  (* Increment the device reference counter in the resolver *)
  match res with
  | Some h => resolver_do h CallIncDeviceCount (fun r => (IncDeviceCount r, None))
  | None => ret tt
  end ;;
  ret d.

(** NetCfgDevice::validate_sender: its first statement is [return;]
    (FIXME: Currently disabled), the check after it is never reached. *)
Definition validate_sender (d : NetCfgDevice) (sender : string) : @M R unit :=
  ret tt.

(** Modelled from the spec: [DBusCredentials::CheckOwnerAccess] is
    declared in [dbus/connection-creds.hpp], which is not part of the
    sources.  Only the recorded owner identity passes; every other
    identity fails with the permission error, which carries the caller's
    identity and a reason. *)
Definition CheckOwnerAccess (d : NetCfgDevice) (sender : string) : @M R unit :=
  if N.eqb (GetUID host sender) (owner d) then ret tt
  else throw (DBusCredentialsException (GetUID host sender)
                "net.openvpn.v3.error.acl.denied" "Owner access denied").

(** [if (!resolver) throw NetCfgException("No resolver configured");] *)
Definition require_resolver (d : NetCfgDevice) : @M R handle :=
  match resolver d with
  | Some h => ret h
  | None => throw (NetCfgException "No resolver configured")
  end.

(** [Establish], first part: the queued resolver settings are applied. *)
Definition Establish_apply (d : NetCfgDevice) : @M R unit :=
  match resolver d with
  | Some h =>
      r <- deref h ;;
      if GetModified r then resolver_do h CallApply Apply else ret tt
  | None => ret tt
  end.

(** [Establish], second part: an fd list is created, the descriptor is
    given to [g_unix_fd_list_append], closed, and the list is sent with
    the reply unless [error] is set.  [error] is not initialised before
    the call: it is set when the duplication fails and holds its first
    value otherwise; the result of the call itself is not looked at. *)
Definition Establish_handoff : @M R unit :=
  let fd := (-1)%Z in  (* TODO: return the real FD of the tun device here *)
  emit EvFdListNew ;;
  emit (EvFdListAppend fd) ;;
  let appended := g_unix_fd_list_append host fd in
  let fdlist := match appended with
                | Appended => [fd]
                | AppendRefused | AppendFailed => []
                end in
  let error := match appended with
               | AppendFailed => true
               | AppendRefused | Appended => error_uninitialised host
               end in
  emit (EvClose fd) ;;
  (if error then throw (NetCfgException "Creating fd list failed") else ret tt) ;;
  (* DBus will close the handle on our side after transmitting *)
  emit (EvReturnValueWithFdList fdlist) ;;
  emit EvUnrefFdList.

Definition method_Establish (d : NetCfgDevice) (conn : GDBusConnection) : @M R unit :=
  (* This should generally be true for DBus 1.3, double checking here cannot hurt *)
  g_assert (unix_fd_passing conn) ;;
  Establish_apply d ;;
  Establish_handoff.

Definition method_Disable (d : NetCfgDevice) : @M R unit :=
  match resolver d with
  | Some h =>
      r <- deref h ;;
      if (GetDeviceCount r <=? 1)%nat
      then try_catch_NetCfg (resolver_do h CallRestore Restore)
                            (fun what => emit (EvLogCritical what))
      else ret tt
  | None => ret tt
  end.

Definition method_Destroy (d : NetCfgDevice) (sender : string) : @M R unit :=
  CheckOwnerAccess d sender ;;
  match resolver d with
  | Some h =>
      resolver_do h CallDecDeviceCount (fun r => (DecDeviceCount r, None)) ;;
      r <- deref h ;;
      if (GetDeviceCount r =? 0)%nat
      then try_catch_NetCfg (resolver_do h CallRestore Restore)
                            (fun what => emit (EvLogCritical what))
      else ret tt
  | None => ret tt
  end ;;
  let sender_name := lookup_username host (GetUID host sender) in
  emit (EvLogVerb1 ("Device '" ++ device_name d ++ "' was removed by " ++ sender_name)%string) ;;
  emit EvRemoveObject ;;
  emit EvReturnValue ;;
  delete_this.

(** The body of the [try] block of [callback_method_call]: four
    separate [if] / [else if] chains, then the reply.  The last chain
    yields [true] when its branch has already left the function. *)
Definition method_call_body (d : NetCfgDevice) (conn : GDBusConnection)
    (sender method_name : string) (params : GVariant) : @M R unit :=
  emit EvIdleCheck_UpdateTimestamp ;;
  (* Only the VPN backend clients are granted access *)
  validate_sender d sender ;;
  (if "AddIPv4Address" =? method_name then ret tt
   else if "RemoveIPv4Address" =? method_name then ret tt
   else if "AddIPv6Address" =? method_name then ret tt
   else ret tt) ;;
  (if "RemoveIPv6Address" =? method_name then ret tt
   else if "AddRoutes" =? method_name then ret tt
   else if "RemoveRoutes" =? method_name then ret tt
   else ret tt) ;;
  (if "AddDNS" =? method_name then
     h <- require_resolver d ;;
     resolver_do h (CallAddDNSServers params) (AddDNSServers params)
   else if "RemoveDNS" =? method_name then
     h <- require_resolver d ;;
     resolver_do h (CallRemoveDNSServers params) (RemoveDNSServers params)
   else if "AddDNSSearch" =? method_name then
     h <- require_resolver d ;;
     resolver_do h (CallAddDNSSearch params) (AddDNSSearch params)
   else ret tt) ;;
  returned <-
    (if "RemoveDNSSearch" =? method_name then
       h <- require_resolver d ;;
       resolver_do h (CallRemoveDNSSearch params) (RemoveDNSSearch params) ;;
       ret false
     else if "Establish" =? method_name then
       method_Establish d conn ;; ret false
     else if "Disable" =? method_name then
       method_Disable d ;; ret false
     else if "Destroy" =? method_name then
       method_Destroy d sender ;; ret true
     else ret false) ;;
  if returned : bool then ret tt else emit EvReturnValue.

(** The three [catch] clauses of [callback_method_call]. *)
Definition method_call_catch (method_name : string) (e : exn) : @M R unit :=
  match e with
  | DBusCredentialsException _ _ err =>
      emit (EvLogCritical err) ;;
      emit (EvSetDBusError e)
  | NetCfgException what =>
      emit (EvReturnGError "net.openvpn.v3.netcfg.error.generic"
              ("Failed executing D-Bus call '" ++ method_name ++ "': " ++ what)%string)
  | DBusPropertyException _ what =>
      emit (EvReturnGError "net.openvpn.v3.netcfg.error.generic"
              ("Failed executing D-Bus call '" ++ method_name ++ "': " ++ what)%string)
  | UnknownException =>
      emit (EvReturnGError "net.openvpn.v3.netcfg.error.unspecified" "Unknown error")
  end.

(** NetCfgDevice::callback_method_call *)
Definition callback_method_call (d : NetCfgDevice) (conn : GDBusConnection)
    (sender method_name : string) (params : GVariant) : @M R unit :=
  fun s =>
    match method_call_body d conn sender method_name params s with
    | (Throw e, s1, t1) =>
        match method_call_catch method_name e s1 with
        | (o, s2, t2) => (o, s2, t1 ++ t2)
        end
    | r => r
    end.

(** Modelled from the spec: [PropertyCollection] and [PropertyType] are
    declared in [dbus/object-property.hpp], which is not part of the
    sources.  The constructor binds four members by name; a bound
    property reads the member it is bound to. *)
Definition properties_Exists (property_name : string) : bool :=
  existsb (String.eqb property_name) ["device_name"; "dns_servers"; "dns_search"; "mtu"].

Definition properties_GetValue (d : NetCfgDevice) (property_name : string) : GVariant :=
  if property_name =? "device_name" then GVString (device_name d)
  else if property_name =? "dns_servers" then GVStrv (dns_servers d)
  else if property_name =? "dns_search" then GVStrv (dns_search d)
  else GVUInt32 (mtu d).

(** The body of the [try] block of [callback_get_property], with the
    [throw] that follows the block when no branch has returned. *)
Definition get_property_body (d : NetCfgDevice) (sender property_name : string)
  : @M R GVariant :=
  emit EvIdleCheck_UpdateTimestamp ;;
  validate_sender d sender ;;
  if "log_level" =? property_name then ret (GVUInt32 (log_level d))
  else if "owner" =? property_name then ret (GVUInt32 (owner d))
  else if "acl" =? property_name then ret (GVUInt32v (acl d))
  else if "active" =? property_name then ret (GVBoolean (active d))
  else if "modified" =? property_name then
    match resolver d with
    | Some h => r <- deref h ;; ret (GVBoolean (false || GetModified r))
    | None => ret (GVBoolean false)
    end
  else if "ipv4_addresses" =? property_name then ret (GVStrv [])
  else if "ipv4_routes" =? property_name then ret (GVStrv [])
  else if "ipv6_addresses" =? property_name then ret (GVStrv [])
  else if "ipv6_routes" =? property_name then ret (GVStrv [])
  else if "dns_servers" =? property_name then
    match resolver d with
    | None =>
        (* If no resolver is configured, return an empty result
           instead of an error when reading this property *)
        ret (GVStrv [])
    | Some h => r <- deref h ;; ret (GVStrv (GetDNSServers r))
    end
  else if properties_Exists property_name then
    ret (properties_GetValue d property_name)
  else throw (DBusPropertyException property_name "Invalid property").

(** NetCfgDevice::callback_get_property: a [DBusPropertyException] is
    thrown again as it is, a [NetCfgException] becomes one. *)
Definition callback_get_property (d : NetCfgDevice) (sender property_name : string)
  : @M R GVariant :=
  fun s =>
    match get_property_body d sender property_name s with
    | (Throw (NetCfgException what), s1, t1) =>
        (Throw (DBusPropertyException property_name what), s1, t1)
    | r => r
    end.

End Device.

(** Parts of the result of running a callback. *)
Definition run_outcome {S A : Type} (r : outcome A * S * list event) : outcome A :=
  fst (fst r).
Definition run_state {S A : Type} (r : outcome A * S * list event) : S :=
  snd (fst r).
Definition run_trace {S A : Type} (r : outcome A * S * list event) : list event :=
  snd r.

(** The calls made on resolvers, in order. *)
Fixpoint resolver_calls (t : list event) : list (handle * resolver_call) :=
  match t with
  | [] => []
  | EvResolver h c :: t' => (h, c) :: resolver_calls t'
  | _ :: t' => resolver_calls t'
  end.

(** The descriptor-list and descriptor calls. *)
Definition is_fd_event (e : event) : bool :=
  match e with
  | EvFdListNew | EvFdListAppend _ | EvClose _
  | EvReturnValueWithFdList _ | EvUnrefFdList => true
  | _ => false
  end.

(** The invocation was answered with an error. *)
Definition is_error_reply (e : event) : bool :=
  match e with
  | EvSetDBusError _ | EvReturnGError _ _ => true
  | _ => false
  end.

(** ** The property write callback *)

Section SetProperty.

Context {R : Type} `{ResolverSettings R}.

(** The object with the log level of its [NetCfgSignals] member set. *)
Definition with_log_level (d : NetCfgDevice) (level : N) : NetCfgDevice :=
  mkNetCfgDevice (objpath d) (owner d) (acl d) (device_type d) (device_name d)
                 (dns_servers d) (dns_search d) (mtu d) level (resolver d) (active d).

(** [signal.SetLogLevel(log_level)] *)
Definition SetLogLevel (d : NetCfgDevice) (level : N) : @M R unit :=
  fun s => (Ret tt, mkState (Some (with_log_level d level)) (heap s), []).

(** [g_variant_get_uint32(value)]; GLib returns 0 for a value of another
    type. *)
Definition g_variant_get_uint32 (value : GVariant) : N :=
  match value with
  | GVUInt32 n => n
  | _ => 0%N
  end.

(** The body of the [try] block of [callback_set_property], with the
    [throw] that follows the block when no branch has returned.  The
    result is what [build_set_property_response] is given. *)
Definition set_property_body (d : NetCfgDevice) (sender property_name : string)
    (value : GVariant) : @M R (string * GVariant) :=
  emit EvIdleCheck_UpdateTimestamp ;;
  validate_sender d sender ;;
  if "log_level" =? property_name then
    let log_level := g_variant_get_uint32 value in
    if (6 <? log_level)%N
    then throw (DBusPropertyException property_name "Invalid log level")
    else SetLogLevel d log_level ;;
         ret (property_name, GVUInt32 log_level)
  else throw (DBusPropertyException property_name "Invalid property").

(** NetCfgDevice::callback_set_property: a [DBusPropertyException] is
    thrown again as it is. *)
Definition callback_set_property (d : NetCfgDevice) (sender property_name : string)
    (value : GVariant) : @M R (string * GVariant) :=
  fun s =>
    match set_property_body d sender property_name value s with
    | (Throw (DBusPropertyException property what), s1, t1) =>
        (Throw (DBusPropertyException property what), s1, t1)
    | r => r
    end.

End SetProperty.

(** ** The service that owns devices and resolvers *)

Section Service.

Context {R : Type} `{ResolverSettings R}.
Variable host : Host.

(** Devices are registered in slots; the slot of a destroyed device is
    empty and no call reaches it any more. *)
Record service := mkService {
  devices : list (option NetCfgDevice);
  resolvers : handle -> R
}.

Inductive request :=
| ReqCreate (creator : uid_t) (path : string) (devtype : NetCfgDeviceType)
            (devname : string) (res : option handle) (level : N)
| ReqMethodCall (dev : nat) (conn : GDBusConnection)
                (sender method_name : string) (params : GVariant)
| ReqGetProperty (dev : nat) (sender property_name : string)
| ReqSetProperty (dev : nat) (sender property_name : string) (value : GVariant).

Fixpoint set_slot {A} (i : nat) (v : A) (l : list A) : list A :=
  match l, i with
  | [], _ => []
  | _ :: l', O => v :: l'
  | x :: l', S i' => x :: set_slot i' v l'
  end.

(** One request; the flag tells that the process was aborted. *)
Definition service_step (q : request) (sv : service) : service * bool :=
  match q with
  | ReqCreate creator path devtype devname res level =>
      match NetCfgDevice_new creator path devtype devname res level
              (mkState None (resolvers sv)) with
      | (Ret d, s', _) => (mkService (devices sv ++ [Some d]) (heap s'), false)
      | (_, s', _) => (mkService (devices sv) (heap s'), false)
      end
  | ReqMethodCall dev conn sender method_name params =>
      match nth_error (devices sv) dev with
      | Some (Some d) =>
          match callback_method_call host d conn sender method_name params
                  (mkState (Some d) (resolvers sv)) with
          | (Abort, s', _) => (mkService (set_slot dev (self s') (devices sv)) (heap s'), true)
          | (_, s', _) => (mkService (set_slot dev (self s') (devices sv)) (heap s'), false)
          end
      | _ => (sv, false)
      end
  | ReqGetProperty dev sender property_name =>
      match nth_error (devices sv) dev with
      | Some (Some d) =>
          match callback_get_property d sender property_name
                  (mkState (Some d) (resolvers sv)) with
          | (_, s', _) => (mkService (set_slot dev (self s') (devices sv)) (heap s'), false)
          end
      | _ => (sv, false)
      end
  | ReqSetProperty dev sender property_name value =>
      match nth_error (devices sv) dev with
      | Some (Some d) =>
          match callback_set_property d sender property_name value
                  (mkState (Some d) (resolvers sv)) with
          | (_, s', _) => (mkService (set_slot dev (self s') (devices sv)) (heap s'), false)
          end
      | _ => (sv, false)
      end
  end.

Fixpoint service_run (qs : list request) (sv : service) : service :=
  match qs with
  | [] => sv
  | q :: qs' =>
      let (sv', aborted) := service_step q sv in
      if aborted then sv' else service_run qs' sv'
  end.

Definition uses (h : handle) (slot : option NetCfgDevice) : bool :=
  match slot with
  | Some d => match resolver d with Some h' => Nat.eqb h' h | None => false end
  | None => false
  end.

(** Number of registered devices constructed with resolver [h]. *)
Definition live_count (h : handle) (ds : list (option NetCfgDevice)) : nat :=
  length (filter (uses h) ds).

End Service.

(** ** The account a history of requests gives of the devices *)

Section History.

Variable host : Host.

(** One device of the history: who created it, the resolver it was
    constructed with, and whether its [Destroy] has completed. *)
Record account := mkAccount {
  acc_owner : uid_t;
  acc_resolver : option handle;
  acc_destroyed : bool
}.

(** The account is kept from the requests alone, not from the state of
    the service: [ReqCreate] constructs a device; a [Destroy] call sent
    by the creator to a device that is not yet destroyed completes; an
    [Establish] call on a connection without fd passing is where the
    process stops (the flag). *)
Definition history_step (q : request) (accs : list account) : list account * bool :=
  match q with
  | ReqCreate creator _ _ _ res _ => (accs ++ [mkAccount creator res false], false)
  | ReqMethodCall dev conn sender method_name _ =>
      match nth_error accs dev with
      | Some a =>
          if acc_destroyed a then (accs, false)
          else if ("Destroy" =? method_name) && (GetUID host sender =? acc_owner a)%N
          then (set_slot dev (mkAccount (acc_owner a) (acc_resolver a) true) accs, false)
          else (accs, ("Establish" =? method_name) && negb (unix_fd_passing conn))
      | None => (accs, false)
      end
  | ReqGetProperty _ _ _ => (accs, false)
  | ReqSetProperty _ _ _ _ => (accs, false)
  end.

Fixpoint history (qs : list request) (accs : list account) : list account :=
  match qs with
  | [] => accs
  | q :: qs' =>
      let (accs', stopped) := history_step q accs in
      if stopped then accs' else history qs' accs'
  end.

Definition counted_by (h : handle) (a : account) : bool :=
  negb (acc_destroyed a)
  && match acc_resolver a with Some h' => Nat.eqb h' h | None => false end.

(** Number of devices constructed with resolver [h] whose [Destroy] has
    not completed. *)
Definition outstanding (h : handle) (accs : list account) : nat :=
  length (filter (counted_by h) accs).

(** A slot of the service against the account of its device. *)
Definition accounted (slot : option NetCfgDevice) (a : account) : Prop :=
  match slot with
  | Some d =>
      acc_destroyed a = false /\ owner d = acc_owner a /\ resolver d = acc_resolver a
  | None => acc_destroyed a = true
  end.

End History.

(** ** A resolver to run the callbacks on *)

Module ResolvConf.

(** Modelled from the spec: a Resolver Handle keeping the DNS servers
    and search domains, the reference count and the modified flag;
    [apply_failure] and [restore_failure] tell whether (and with which
    message) [Apply] and [Restore] fail. *)
Record t := mk {
  device_count : nat;
  modified : bool;
  servers : list string;
  search : list string;
  apply_failure : option string;
  restore_failure : option string
}.

Definition strv (p : GVariant) : list string :=
  match p with GVStrv l => l | _ => [] end.

Definition remove_all (l from : list string) : list string :=
  filter (fun x => negb (existsb (String.eqb x) l)) from.

Definition inc (r : t) : t :=
  mk (S (device_count r)) (modified r) (servers r) (search r)
     (apply_failure r) (restore_failure r).

Definition dec (r : t) : t :=
  mk (pred (device_count r)) (modified r) (servers r) (search r)
     (apply_failure r) (restore_failure r).

Definition apply (r : t) : t * option string :=
  match apply_failure r with
  | Some what => (r, Some what)
  | None => (mk (device_count r) false (servers r) (search r)
                (apply_failure r) (restore_failure r), None)
  end.

Definition restore (r : t) : t * option string :=
  match restore_failure r with
  | Some what => (r, Some what)
  | None => (mk (device_count r) false (servers r) (search r)
                (apply_failure r) (restore_failure r), None)
  end.

Definition set_servers (l : list string) (r : t) : t * option string :=
  (mk (device_count r) true l (search r) (apply_failure r) (restore_failure r), None).

Definition set_search (l : list string) (r : t) : t * option string :=
  (mk (device_count r) true (servers r) l (apply_failure r) (restore_failure r), None).

#[global] Instance settings : ResolverSettings t := {
  IncDeviceCount := inc;
  DecDeviceCount := dec;
  GetDeviceCount := device_count;
  GetModified := modified;
  GetDNSServers := servers;
  Apply := apply;
  Restore := restore;
  AddDNSServers p r := set_servers (servers r ++ strv p) r;
  RemoveDNSServers p r := set_servers (remove_all (strv p) (servers r)) r;
  AddDNSSearch p r := set_search (search r ++ strv p) r;
  RemoveDNSSearch p r := set_search (remove_all (strv p) (search r)) r
}.

(** A fresh handle: no dependent device, nothing queued. *)
Definition fresh : t := mk 0 false [] [] None None.

End ResolvConf.

(** ** Reasoning about callbacks *)

Section Reasoning.

Context {R : Type} `{ResolverSettings R}.

(** [sat m Q]: every run of [m] relates the state before, the state
    after and the events of the run by [Q]. *)
Definition sat {A} (m : @M R A) (Q : @state R -> @state R -> list event -> Prop) : Prop :=
  forall s, Q s (run_state (m s)) (run_trace (m s)).

(** Relations that hold of the empty run and compose along [bind]. *)
Record compositional (Q : @state R -> @state R -> list event -> Prop) : Prop := {
  comp_nil : forall s, Q s s [];
  comp_app : forall s s1 s2 t1 t2, Q s s1 t1 -> Q s1 s2 t2 -> Q s s2 (t1 ++ t2)
}.

(** The object is still there and no reference count has moved. *)
Definition kept (s s' : @state R) (t : list event) : Prop :=
  self s' = self s /\
  forall h, GetDeviceCount (heap s' h) = GetDeviceCount (heap s h).

(** The object is still there, or it has been released. *)
Definition same_or_gone (s s' : @state R) (t : list event) : Prop :=
  self s' = self s \/ self s' = None.

(** Nothing has changed. *)
Definition unchanged (s s' : @state R) (t : list event) : Prop := s' = s.


End Reasoning.

(** The reference counts of a service: each resolver counts [base] plus
    the registered devices that were constructed with it. *)
Definition counts_live {R : Type} `{ResolverSettings R}
    (base : handle -> nat) (sv : @service R) : Prop :=
  forall h, GetDeviceCount (resolvers sv h) = (base h + live_count h (devices sv))%nat.

(** The [active] member of a registered device is [false]. *)
Definition inactive (slot : option NetCfgDevice) : Prop :=
  match slot with
  | Some d => active d = false
  | None => True
  end.

(** The method names [callback_method_call] compares against. *)
Definition dispatched_methods : list string :=
  ["AddIPv4Address"; "RemoveIPv4Address"; "AddIPv6Address"; "RemoveIPv6Address";
   "AddRoutes"; "RemoveRoutes"; "AddDNS"; "RemoveDNS"; "AddDNSSearch";
   "RemoveDNSSearch"; "Establish"; "Disable"; "Destroy"].

(** Events with which [Destroy] ends once the resolver is dealt with. *)
Definition Destroy_tail (host : Host) (d : NetCfgDevice) (sender : string) : list event :=
  [EvLogVerb1 ("Device '" ++ device_name d ++ "' was removed by "
               ++ lookup_username host (GetUID host sender))%string;
   EvRemoveObject; EvReturnValue; EvRemoveCallback; EvIdleCheck_RefDec].

(** The generic error reply of the [std::exception] handler. *)
Definition generic_error (method_name what : string) : event :=
  EvReturnGError "net.openvpn.v3.netcfg.error.generic"
    ("Failed executing D-Bus call '" ++ method_name ++ "': " ++ what)%string.

(** What is logged when [Restore()] has raised. *)
Definition logged (failure : option string) : list event :=
  match failure with
  | Some what => [EvLogCritical what]
  | None => []
  end.

(** Events of the second part of [Establish], from the creation of the
    fd list to the end of the call: the append of -1 is refused, so the
    list stays empty and [error] keeps the value it happened to hold. *)
Definition handoff_events (host : Host) : list event :=
  [EvFdListNew; EvFdListAppend (-1); EvClose (-1)] ++
  if error_uninitialised host
  then [generic_error "Establish" "Creating fd list failed"]
  else [EvReturnValueWithFdList []; EvUnrefFdList; EvReturnValue].


(** ** A concrete service *)

Module Scenario.

(** Bus name [":1.42"] belongs to uid 1000, every other one to uid 1001;
    every descriptor can be duplicated and [error] happens to be null. *)
Definition host : Host :=
  mkHost (fun sender => if sender =? ":1.42" then 1000%N else 1001%N)
         (fun uid => if (uid =? 1000)%N then "alice" else "bob")
         (fun _ => true) false.


Definition conn : GDBusConnection := mkConn true.

(** A device as the constructor leaves it, created by uid 1000 with the
    resolver at address 0. *)
Definition tun0 : NetCfgDevice :=
  mkNetCfgDevice "/net/openvpn/v3/netcfg/tun0" 1000%N [] TUN "tun0" [] []
                 1500%N 3%N (Some 0) false.

(** The resolver after that construction, with changes queued. *)
Definition queued : ResolvConf.t :=
  ResolvConf.mk 1 true ["10.8.0.1"] ["example.org"] None None.

Definition start : @state ResolvConf.t := mkState (Some tun0) (fun _ => queued).

(** The same, with a resolver whose [Apply] and [Restore] fail. *)
Definition failing : ResolvConf.t :=
  ResolvConf.mk 1 true ["10.8.0.1"] ["example.org"]
                (Some "Failed writing resolv.conf") (Some "Failed restoring resolv.conf").

Definition start_failing : @state ResolvConf.t :=
  mkState (Some tun0) (fun _ => failing).

(** Two devices share the resolver at address 0; A is disabled, B is
    destroyed, then A is destroyed. *)
Definition two_devices : list request :=
  [ReqCreate 1000%N "/net/openvpn/v3/netcfg/tunA" TUN "tunA" (Some 0) 3%N;
   ReqCreate 1000%N "/net/openvpn/v3/netcfg/tunB" TUN "tunB" (Some 0) 3%N;
   ReqMethodCall 0 conn ":1.42" "Establish" (GVStrv []);
   ReqMethodCall 0 conn ":1.42" "Disable" (GVStrv []);
   ReqSetProperty 1 ":1.7" "log_level" (GVUInt32 6);
   ReqGetProperty 1 ":1.7" "log_level";
   ReqMethodCall 1 conn ":1.7" "Destroy" (GVStrv []);
   ReqMethodCall 1 conn ":1.42" "Destroy" (GVStrv []);
   ReqMethodCall 0 conn ":1.42" "Destroy" (GVStrv [])].

End Scenario.

(** ** A second concrete service: two devices on one resolver *)

Module Shared.

Definition tunA : NetCfgDevice :=
  mkNetCfgDevice "/net/openvpn/v3/netcfg/tunA" 1000%N [] TUN "tunA" [] []
                 1500%N 3%N (Some 0) false.

Definition tunB : NetCfgDevice :=
  mkNetCfgDevice "/net/openvpn/v3/netcfg/tunB" 1001%N [] TUN "tunB" [] []
                 1500%N 3%N (Some 0) false.

(** Every resolver counts two devices. *)
Definition start : @state ResolvConf.t :=
  mkState (Some tunA) (fun _ => ResolvConf.mk 2 true ["10.8.0.1"] [] None None).

(** No device yet. *)
Definition empty : @state ResolvConf.t :=
  mkState None (fun _ => ResolvConf.fresh).

End Shared.

(** The properties the introspection document of the constructor
    declares, with their access: the nine it lists itself, then the four
    bound with [properties.AddBinding]. *)
Definition introspected_properties : list (string * string) :=
  [("log_level", "readwrite"); ("owner", "read"); ("acl", "read");
   ("active", "read"); ("modified", "read"); ("ipv4_addresses", "read");
   ("ipv4_routes", "read"); ("ipv6_addresses", "read"); ("ipv6_routes", "read");
   ("device_name", "read"); ("dns_servers", "read"); ("dns_search", "read");
   ("mtu", "readwrite")].

(** The four DNS methods: the call made on the resolver and the
    resolver operation behind it. *)
Definition dns_methods {R : Type} `{ResolverSettings R}
  : list (string * (GVariant -> resolver_call) * (GVariant -> R -> R * option string)) :=
  [("AddDNS", CallAddDNSServers, AddDNSServers);
   ("RemoveDNS", CallRemoveDNSServers, RemoveDNSServers);
   ("AddDNSSearch", CallAddDNSSearch, AddDNSSearch);
   ("RemoveDNSSearch", CallRemoveDNSSearch, RemoveDNSSearch)].

(** The replies sent on the invocation of a call. *)
Definition is_reply (e : event) : bool :=
  match e with
  | EvReturnValue | EvReturnValueWithFdList _
  | EvSetDBusError _ | EvReturnGError _ _ => true
  | _ => false
  end.

Definition replies (t : list event) : nat := length (filter is_reply t).

Lemma resolver_calls_app (t1 t2 : list event) :
  resolver_calls (t1 ++ t2) = resolver_calls t1 ++ resolver_calls t2.
Proof.
  induction t1 as [|e t1 IH]; [reflexivity|].
  destruct e; cbn; rewrite ?IH; reflexivity.
Qed.

Section ReasoningFacts.

Context {R : Type} `{ResolverSettings R}.

Lemma kept_compositional : compositional (R:=R) kept.
Proof.
  split.
  - intros s. split; [reflexivity | intros h; reflexivity].
  - intros s s1 s2 t1 t2 [Hs1 Hc1] [Hs2 Hc2]. split.
    + congruence.
    + intros h. rewrite Hc2. apply Hc1.
Qed.


Section Rules.

Variable Q : @state R -> @state R -> list event -> Prop.
Hypothesis HQ : compositional Q.

Lemma sat_ret {A} (a : A) : sat (ret a) Q.
Proof. intros s. apply (comp_nil Q HQ). Qed.

Lemma sat_throw {A} (e : exn) : sat (throw (A:=A) e) Q.
Proof. intros s. apply (comp_nil Q HQ). Qed.

Lemma sat_deref (h : handle) : sat (deref h) Q.
Proof. intros s. apply (comp_nil Q HQ). Qed.

Lemma sat_g_assert (b : bool) : sat (g_assert b) Q.
Proof. intros s. unfold g_assert. destruct b; apply (comp_nil Q HQ). Qed.

Lemma sat_bind {A B} (m : M A) (k : A -> M B) :
  sat m Q -> (forall a, sat (k a) Q) -> sat (bind m k) Q.
Proof.
  intros Hm Hk s. specialize (Hm s). unfold bind.
  destruct (m s) as [[o s1] t1]. cbn in Hm.
  destruct o as [a| |]; try exact Hm.
  specialize (Hk a s1). destruct (k a s1) as [[o2 s2] t2]. cbn in *.
  eapply (comp_app Q HQ); eassumption.
Qed.

Lemma sat_bind_throw {A B} (e : exn) (k : A -> M B) :
  sat (bind (throw e) k) Q.
Proof. intros s. apply (comp_nil Q HQ). Qed.

Lemma sat_try_catch (m : M unit) (k : string -> M unit) :
  sat m Q -> (forall what, sat (k what) Q) -> sat (try_catch_NetCfg m k) Q.
Proof.
  intros Hm Hk s. specialize (Hm s). unfold try_catch_NetCfg.
  destruct (m s) as [[o s1] t1]. cbn in Hm.
  destruct o as [a|e|]; try exact Hm.
  destruct e; try exact Hm.
  specialize (Hk what s1). destruct (k what s1) as [[o2 s2] t2]. cbn in *.
  eapply (comp_app Q HQ); eassumption.
Qed.

End Rules.

Lemma kept_emit (e : event) : sat (emit e) kept.
Proof. intros s. split; [reflexivity | intros h; reflexivity]. Qed.

Lemma update_same (h : handle) (r : R) (m : handle -> R) : update h r m h = r.
Proof. unfold update. rewrite Nat.eqb_refl. reflexivity. Qed.

Lemma update_other (h h' : handle) (r : R) (m : handle -> R) :
  h <> h' -> update h r m h' = m h'.
Proof.
  intros Hne. unfold update.
  destruct (Nat.eqb_spec h h'); [contradiction | reflexivity].
Qed.

(** A resolver call that leaves the counter alone keeps all counts. *)
Lemma kept_resolver_do (h : handle) (c : resolver_call) (op : R -> R * option string) :
  (forall r, GetDeviceCount (fst (op r)) = GetDeviceCount r) ->
  sat (resolver_do h c op) kept.
Proof.
  intros Hop s. unfold resolver_do.
  specialize (Hop (heap s h)).
  destruct (op (heap s h)) as [r' [what|]];
    cbn [fst snd run_state run_trace self heap] in *;
    (split; [reflexivity|]); intros h'; cbn [heap];
    (destruct (Nat.eq_dec h h') as [<-|Hne];
     [rewrite update_same; exact Hop | rewrite update_other by exact Hne; reflexivity]).
Qed.

End ReasoningFacts.

(** ** What each method does *)

Section DeviceFacts.

Context {R : Type} `{ResolverSettings R}.
Variable host : Host.

Ltac run_monad :=
  unfold callback_method_call, method_call_body, method_call_catch,
    method_Establish, Establish_apply, Establish_handoff, g_unix_fd_list_append,
    method_Disable, method_Destroy, CheckOwnerAccess, require_resolver,
    validate_sender, try_catch_NetCfg, resolver_do, delete_this, deref, g_assert,
    bind, emit, throw, ret;
  cbn [String.eqb Ascii.eqb Bool.eqb fst snd self heap app].

Lemma Disable_run (d : NetCfgDevice) conn sender params (s : state) :
  callback_method_call host d conn sender "Disable" params s =
  match resolver d with
  | Some h =>
      if (GetDeviceCount (heap s h) <=? 1)%nat then
        (Ret tt, mkState (self s) (update h (fst (Restore (heap s h))) (heap s)),
         [EvIdleCheck_UpdateTimestamp; EvResolver h CallRestore]
         ++ logged (snd (Restore (heap s h))) ++ [EvReturnValue])
      else (Ret tt, s, [EvIdleCheck_UpdateTimestamp; EvReturnValue])
  | None => (Ret tt, s, [EvIdleCheck_UpdateTimestamp; EvReturnValue])
  end.
Proof.
  run_monad.
  destruct (resolver d) as [h|]; [|reflexivity].
  cbn [fst snd self heap app].
  destruct (GetDeviceCount (heap s h) <=? 1)%nat; [|reflexivity].
  destruct (Restore (heap s h)) as [r' [what|]]; reflexivity.
Qed.

Lemma Destroy_run (d : NetCfgDevice) conn sender params (s : state) :
  callback_method_call host d conn sender "Destroy" params s =
  if (GetUID host sender =? owner d)%N then
    match resolver d with
    | Some h =>
        let r1 := DecDeviceCount (heap s h) in
        if (GetDeviceCount r1 =? 0)%nat then
          (Ret tt,
           mkState None (update h (fst (Restore r1)) (update h r1 (heap s))),
           [EvIdleCheck_UpdateTimestamp; EvResolver h CallDecDeviceCount;
            EvResolver h CallRestore]
           ++ logged (snd (Restore r1)) ++ Destroy_tail host d sender)
        else
          (Ret tt, mkState None (update h r1 (heap s)),
           [EvIdleCheck_UpdateTimestamp; EvResolver h CallDecDeviceCount]
           ++ Destroy_tail host d sender)
    | None =>
        (Ret tt, mkState None (heap s),
         EvIdleCheck_UpdateTimestamp :: Destroy_tail host d sender)
    end
  else
    (Ret tt, s,
     [EvIdleCheck_UpdateTimestamp; EvLogCritical "Owner access denied";
      EvSetDBusError (DBusCredentialsException (GetUID host sender)
                        "net.openvpn.v3.error.acl.denied" "Owner access denied")]).
Proof.
  run_monad.
  destruct (GetUID host sender =? owner d)%N; [|reflexivity].
  cbn [fst snd self heap app].
  destruct (resolver d) as [h|]; [|reflexivity].
  cbn [fst snd self heap app]. rewrite update_same.
  destruct (GetDeviceCount (DecDeviceCount (heap s h)) =? 0)%nat; [|reflexivity].
  cbn [fst snd self heap app]. rewrite update_same.
  destruct (Restore (DecDeviceCount (heap s h))) as [r' [what|]]; reflexivity.
Qed.

Lemma Establish_run (d : NetCfgDevice) conn sender params (s : state) :
  callback_method_call host d conn sender "Establish" params s =
  if unix_fd_passing conn then
    match resolver d with
    | Some h =>
        if GetModified (heap s h) then
          let s1 := mkState (self s) (update h (fst (Apply (heap s h))) (heap s)) in
          match snd (Apply (heap s h)) with
          | Some what =>
              (Ret tt, s1,
               [EvIdleCheck_UpdateTimestamp; EvResolver h CallApply;
                generic_error "Establish" what])
          | None =>
              (Ret tt, s1,
               [EvIdleCheck_UpdateTimestamp; EvResolver h CallApply]
               ++ handoff_events host)
          end
        else (Ret tt, s, [EvIdleCheck_UpdateTimestamp] ++ handoff_events host)
    | None => (Ret tt, s, [EvIdleCheck_UpdateTimestamp] ++ handoff_events host)
    end
  else (Abort, s, [EvIdleCheck_UpdateTimestamp]).
Proof.
  run_monad. unfold handoff_events.
  destruct (unix_fd_passing conn); [|reflexivity].
  destruct (resolver d) as [h|]; cbn [fst snd self heap app].
  - destruct (GetModified (heap s h)).
    + destruct (Apply (heap s h)) as [r' [what|]]; cbn [fst snd self heap app];
        [reflexivity|].
      destruct (error_uninitialised host);
        reflexivity.
    + destruct (error_uninitialised host);
        reflexivity.
  - destruct (error_uninitialised host);
      reflexivity.
Qed.

(** A method name that is not compared against falls through the four
    chains. *)
Lemma undispatched_run (d : NetCfgDevice) conn sender method_name params (s : state) :
  ~ In method_name dispatched_methods ->
  callback_method_call host d conn sender method_name params s =
  (Ret tt, s, [EvIdleCheck_UpdateTimestamp; EvReturnValue]).
Proof.
  intros Hnot.
  assert (Hne : forall name, In name dispatched_methods -> (name =? method_name) = false).
  { intros name Hin. apply String.eqb_neq. intros ->. exact (Hnot Hin). }
  unfold callback_method_call, method_call_body.
  rewrite !Hne by (cbn; tauto).
  reflexivity.
Qed.

(** The address and route methods have an empty body. *)
Lemma stub_run (d : NetCfgDevice) conn sender method_name params (s : state) :
  In method_name ["AddIPv4Address"; "RemoveIPv4Address"; "AddIPv6Address";
                  "RemoveIPv6Address"; "AddRoutes"; "RemoveRoutes"] ->
  callback_method_call host d conn sender method_name params s =
  (Ret tt, s, [EvIdleCheck_UpdateTimestamp; EvReturnValue]).
Proof.
  cbn [In]. intros Hin.
  repeat (destruct Hin as [<- | Hin]; [reflexivity|]).
  contradiction.
Qed.

Section Walk.

Variable Q : @state R -> @state R -> list event -> Prop.
Hypothesis HQ : compositional Q.

(** The [catch] clauses preserve what the body and the replies preserve. *)
Lemma sat_callback (d : NetCfgDevice) conn sender method_name params :
  sat (method_call_body host d conn sender method_name params) Q ->
  (forall e, resolver_calls [e] = [] -> sat (emit e) Q) ->
  sat (callback_method_call host d conn sender method_name params) Q.
Proof.
  intros Hbody Hemit s. specialize (Hbody s). unfold callback_method_call.
  destruct (method_call_body host d conn sender method_name params s) as [[o s1] t1].
  cbn [run_state run_trace fst snd] in Hbody.
  destruct o as [a|e|]; try exact Hbody.
  assert (Hc : sat (method_call_catch (R:=R) method_name e) Q).
  { unfold method_call_catch.
    destruct e; repeat (apply (sat_bind Q HQ); [|intros ?]); apply Hemit; reflexivity. }
  specialize (Hc s1).
  destruct (method_call_catch method_name e s1) as [[o2 s2] t2].
  cbn [run_state run_trace fst snd] in *.
  eapply (comp_app Q HQ); eassumption.
Qed.

End Walk.

End DeviceFacts.

(** ** Methods other than [Destroy], and devices without a resolver *)

Ltac walk HQ leaf :=
  lazymatch goal with
  | |- sat (bind (throw _) _) _ => apply (sat_bind_throw _ HQ)
  | |- sat (bind _ _) _ =>
      apply (sat_bind _ HQ); [walk HQ leaf | intros ?; walk HQ leaf]
  | |- sat (ret _) _ => apply (sat_ret _ HQ)
  | |- sat (throw _) _ => apply (sat_throw _ HQ)
  | |- sat (deref _) _ => apply (sat_deref _ HQ)
  | |- sat (g_assert _) _ => apply (sat_g_assert _ HQ)
  | |- sat (try_catch_NetCfg _ _) _ =>
      apply (sat_try_catch _ HQ); [walk HQ leaf | intros ?; walk HQ leaf]
  | |- sat (if ?b then _ else _) _ => destruct b; walk HQ leaf
  | |- sat (match ?x with _ => _ end) _ => destruct x; walk HQ leaf
  | |- _ => leaf
  end.

Ltac unfold_methods :=
  unfold method_call_body, validate_sender, require_resolver, method_Establish,
    Establish_apply, Establish_handoff, method_Disable, method_Destroy,
    CheckOwnerAccess;
  cbv zeta.

Section Preservation.

Context {R : Type} `{ResolverCounter R}.
Variable host : Host.

(** Only a [Destroy] call can make the object go away or move a
    reference count. *)
Lemma other_methods_keep (d : NetCfgDevice) conn sender method_name params :
  method_name <> "Destroy" ->
  sat (callback_method_call host d conn sender method_name params) kept.
Proof.
  intros Hne.
  apply (sat_callback host kept kept_compositional); [|intros e _; apply kept_emit].
  unfold_methods.
  replace ("Destroy" =? method_name) with false
    by (symmetry; apply String.eqb_neq; congruence).
  walk (kept_compositional (R:=R))
    ltac:(first [ apply kept_emit
                | apply kept_resolver_do; intros;
                  first [ apply count_Apply | apply count_Restore
                        | apply count_AddDNSServers | apply count_RemoveDNSServers
                        | apply count_AddDNSSearch | apply count_RemoveDNSSearch ] ]).
Qed.

End Preservation.

Section Quiet.

Context {R : Type} `{ResolverSettings R}.
Variable host : Host.




End Quiet.

(** ** Properties of the method callback *)

Section DeviceProperties.

Context {R : Type} `{ResolverSettings R}.
Variable host : Host.


(** C3.  A [Destroy] call by an identity that is not the recorded owner
    is answered with the permission error and nothing else happens: the
    object and the resolver store are as before, no resolver call is
    made, the object is neither unregistered nor released.  A [Destroy]
    call by the owner after that succeeds: the object is unregistered,
    the call acknowledged and the object released. *)
Theorem destroy_requires_owner
    (d : NetCfgDevice) conn sender owner_sender params (s : state) :
  GetUID host sender <> owner d ->
  GetUID host owner_sender = owner d ->
  let r := callback_method_call host d conn sender "Destroy" params s in
  r = (Ret tt, s,
       [EvIdleCheck_UpdateTimestamp; EvLogCritical "Owner access denied";
        EvSetDBusError (DBusCredentialsException (GetUID host sender)
                          "net.openvpn.v3.error.acl.denied" "Owner access denied")])
  /\
  let r' := callback_method_call host d conn owner_sender "Destroy" params (run_state r) in
  run_outcome r' = Ret tt
  /\ self (run_state r') = None
  /\ (exists before, run_trace r' = before ++ Destroy_tail host d owner_sender)
  /\ existsb is_error_reply (run_trace r') = false.
Proof.
  intros Hother Howner.
  apply N.eqb_neq in Hother. apply N.eqb_eq in Howner.
  cbv zeta. rewrite !Destroy_run, Hother. cbn [run_state fst snd].
  split; [reflexivity|]. rewrite Howner.
  assert (Hshape : forall st t,
            existsb is_error_reply (t ++ Destroy_tail host d owner_sender) = false ->
            let r' := (Ret tt, mkState (R:=R) None st,
                       t ++ Destroy_tail host d owner_sender) in
            run_outcome r' = Ret tt
            /\ self (run_state r') = None
            /\ (exists before, run_trace r' = before ++ Destroy_tail host d owner_sender)
            /\ existsb is_error_reply (run_trace r') = false).
  { intros st t Ht. cbv zeta. cbn [run_outcome run_state run_trace fst snd self].
    split; [reflexivity|]. split; [reflexivity|]. split; [|exact Ht].
    exists t. reflexivity. }
  destruct (resolver d) as [h|]; cbv zeta.
  - destruct (GetDeviceCount (DecDeviceCount (heap s h)) =? 0)%nat.
    + rewrite app_assoc. apply Hshape.
      destruct (snd (Restore (DecDeviceCount (heap s h)))); reflexivity.
    + apply Hshape. reflexivity.
  - apply (Hshape (heap s) [EvIdleCheck_UpdateTimestamp]). reflexivity.
Qed.

(** C4.  An [Establish] call on a device whose resolver reports modified
    state calls [Apply] before anything is done for the descriptor
    handoff.  When [Apply] fails the caller gets the error reply that
    names [Establish] and carries the failure, no descriptor call is
    made, and the object is as before, so the call can be made again. *)
Theorem establish_applies_first
    (d : NetCfgDevice) conn sender params (s : state) (h : handle) :
  unix_fd_passing conn = true ->
  resolver d = Some h ->
  GetModified (heap s h) = true ->
  let r := callback_method_call host d conn sender "Establish" params s in
  match snd (Apply (heap s h)) with
  | Some what =>
      run_outcome r = Ret tt
      /\ run_trace r = [EvIdleCheck_UpdateTimestamp; EvResolver h CallApply;
                        generic_error "Establish" what]
      /\ existsb is_fd_event (run_trace r) = false
      /\ self (run_state r) = self s
  | None =>
      run_trace r = [EvIdleCheck_UpdateTimestamp; EvResolver h CallApply]
                    ++ handoff_events host
  end.
Proof.
  intros Hconn Hres Hmod. cbv zeta.
  rewrite Establish_run, Hconn, Hres, Hmod. cbv zeta.
  destruct (snd (Apply (heap s h))) as [what|]; [|reflexivity].
  repeat split; reflexivity.
Qed.

(** C7.  When [Restore] fails during [Disable] or [Destroy] the failure
    is logged and nothing more: the call is answered with a value, not
    an error, and [Destroy] goes on to unregister the object,
    acknowledge the call and release the object. *)
Theorem restore_failure_is_logged_only
    (d : NetCfgDevice) conn sender params (s : state) (h : handle) (what : string) :
  resolver d = Some h ->
  ((GetDeviceCount (heap s h) <= 1)%nat ->
   snd (Restore (heap s h)) = Some what ->
   callback_method_call host d conn sender "Disable" params s =
   (Ret tt, mkState (self s) (update h (fst (Restore (heap s h))) (heap s)),
    [EvIdleCheck_UpdateTimestamp; EvResolver h CallRestore;
     EvLogCritical what; EvReturnValue]))
  /\
  (GetUID host sender = owner d ->
   GetDeviceCount (DecDeviceCount (heap s h)) = 0%nat ->
   snd (Restore (DecDeviceCount (heap s h))) = Some what ->
   callback_method_call host d conn sender "Destroy" params s =
   (Ret tt,
    mkState None (update h (fst (Restore (DecDeviceCount (heap s h))))
                    (update h (DecDeviceCount (heap s h)) (heap s))),
    [EvIdleCheck_UpdateTimestamp; EvResolver h CallDecDeviceCount;
     EvResolver h CallRestore; EvLogCritical what;
     EvLogVerb1 ("Device '" ++ device_name d ++ "' was removed by "
                 ++ lookup_username host (GetUID host sender))%string;
     EvRemoveObject; EvReturnValue; EvRemoveCallback; EvIdleCheck_RefDec])).
Proof.
  intros Hres. split.
  - intros Hcount Hfail. apply Nat.leb_le in Hcount.
    rewrite Disable_run, Hres, Hcount, Hfail. reflexivity.
  - intros Howner Hcount Hfail.
    apply N.eqb_eq in Howner. apply Nat.eqb_eq in Hcount.
    rewrite Destroy_run, Hres, Howner. cbv zeta.
    rewrite Hcount, Hfail. reflexivity.
Qed.

(** C10.  A call whose method name is none of the names the callback
    compares against (a misspelled name, a name in another case) is
    answered with an empty value, not with an error, and changes neither
    the object nor any resolver. *)
Theorem unknown_method_succeeds
    (d : NetCfgDevice) conn sender method_name params (s : state) :
  ~ In method_name dispatched_methods ->
  callback_method_call host d conn sender method_name params s =
  (Ret tt, s, [EvIdleCheck_UpdateTimestamp; EvReturnValue]).
Proof. apply undispatched_run. Qed.

End DeviceProperties.

(** ** The property callback *)

Section PropertyFacts.

Context {R : Type} `{ResolverSettings R}.

Lemma unchanged_compositional : compositional (R:=R) unchanged.
Proof.
  split.
  - intros s. reflexivity.
  - unfold unchanged. intros; congruence.
Qed.

(** Reading a property changes neither the object nor any resolver. *)
Lemma get_property_unchanged (d : NetCfgDevice) (sender property_name : string) :
  sat (callback_get_property d sender property_name) unchanged.
Proof.
  assert (Hbody : sat (get_property_body (R:=R) d sender property_name) unchanged).
  { unfold get_property_body, validate_sender.
    walk (unchanged_compositional) ltac:(intros s; reflexivity). }
  intros s. specialize (Hbody s). unfold callback_get_property.
  destruct (get_property_body d sender property_name s) as [[o s1] t1].
  destruct o as [a|e|]; try exact Hbody. destruct e; exact Hbody.
Qed.

Lemma get_active_run (d : NetCfgDevice) (sender : string) (s : @state R) :
  callback_get_property d sender "active" s =
  (Ret (GVBoolean (active d)), s, [EvIdleCheck_UpdateTimestamp]).
Proof. reflexivity. Qed.

(** [dns_search] has no branch of its own: the read falls through to
    the property collection, which returns the member of the device. *)
Lemma get_dns_search_run (d : NetCfgDevice) (sender : string) (s : @state R) :
  callback_get_property d sender "dns_search" s =
  (Ret (GVStrv (dns_search d)), s, [EvIdleCheck_UpdateTimestamp]).
Proof. reflexivity. Qed.

Lemma get_dns_servers_run (d : NetCfgDevice) (sender : string) (s : @state R) :
  callback_get_property d sender "dns_servers" s =
  (Ret (GVStrv match resolver d with
               | Some h => GetDNSServers (heap s h)
               | None => []
               end), s, [EvIdleCheck_UpdateTimestamp]).
Proof.
  unfold callback_get_property, get_property_body, validate_sender, bind, emit, ret, deref.
  cbn [String.eqb Ascii.eqb Bool.eqb].
  destruct (resolver d); reflexivity.
Qed.

End PropertyFacts.

(** ** The service: reference counts and the [active] flag *)

Section SlotFacts.

Lemma set_slot_same {A} (i : nat) (x : A) (l : list A) :
  nth_error l i = Some x -> set_slot i x l = l.
Proof.
  revert i. induction l as [|y l IH]; intros [|i] Hnth; cbn in *;
    try discriminate; try reflexivity.
  - congruence.
  - rewrite IH by exact Hnth. reflexivity.
Qed.

Lemma Forall_set_slot {A} (P : A -> Prop) (i : nat) (v : A) (l : list A) :
  Forall P l -> P v -> Forall P (set_slot i v l).
Proof.
  intros Hl Hv. revert i.
  induction Hl as [|y l Hy Hl IH]; intros [|i]; cbn; constructor; auto.
Qed.

Lemma live_count_app (h : handle) (ds : list (option NetCfgDevice)) slot :
  live_count h (ds ++ [slot]) =
  (live_count h ds + if uses h slot then 1 else 0)%nat.
Proof.
  unfold live_count. rewrite filter_app, length_app. cbn [filter].
  destruct (uses h slot); reflexivity.
Qed.

(** Emptying the slot of a device takes one from the count of its
    resolver and nothing from the others. *)
Lemma live_count_release (h : handle) (i : nat) (d : NetCfgDevice)
    (ds : list (option NetCfgDevice)) :
  nth_error ds i = Some (Some d) ->
  live_count h ds =
  (live_count h (set_slot i None ds) + if uses h (Some d) then 1 else 0)%nat.
Proof.
  unfold live_count. revert i.
  induction ds as [|y ds IH]; intros [|i] Hnth; cbn [nth_error] in Hnth;
    try discriminate.
  - injection Hnth as ->. cbn [set_slot filter].
    change (uses h None) with false. cbv iota.
    destruct (uses h (Some d)); cbn [length]; lia.
  - cbn [set_slot filter]. specialize (IH i Hnth).
    destruct (uses h y); cbn [length]; lia.
Qed.

End SlotFacts.

Section ServiceFacts.

Context {R : Type} `{ResolverSettings R}.
Variable host : Host.

Lemma New_run creator path devtype devname res level (s : @state R) :
  NetCfgDevice_new creator path devtype devname res level s =
  (Ret (mkNetCfgDevice path creator [] devtype devname [] [] 1500%N level res false),
   mkState (self s)
     match res with
     | Some h => update h (IncDeviceCount (heap s h)) (heap s)
     | None => heap s
     end,
   EvLogVerb2 ("Network device '" ++ devname ++ "' prepared")%string
   :: match res with
      | Some h => [EvResolver h CallIncDeviceCount]
      | None => []
      end).
Proof.
  unfold NetCfgDevice_new, bind, emit, ret, resolver_do.
  destruct res as [h|]; [reflexivity|]. destruct s; reflexivity.
Qed.

Lemma same_or_gone_compositional : compositional (R:=R) same_or_gone.
Proof.
  split.
  - intros s. left. reflexivity.
  - unfold same_or_gone. intros s s1 s2 t1 t2 [H1|H1] [H2|H2]; rewrite H2; auto.
Qed.

(** A method call leaves the members of the object alone: afterwards the
    object is as it was, or it has been released. *)
Lemma method_call_same_or_gone (d : NetCfgDevice) conn sender method_name params :
  sat (callback_method_call host d conn sender method_name params) same_or_gone.
Proof.
  apply (sat_callback host same_or_gone same_or_gone_compositional);
    [|intros e _ s; left; reflexivity].
  unfold_methods.
  walk (same_or_gone_compositional)
    ltac:(first [ intros s; right; reflexivity
                | intros s; left; unfold resolver_do;
                  match goal with
                  | |- context [let (_, _) := ?x in _] => destruct x as [? [?|]]
                  end; reflexivity
                | intros s; left; reflexivity ]).
Qed.

End ServiceFacts.

Section SetPropertyFacts.

Context {R : Type} `{ResolverSettings R}.

(** A property write stores a log level up to 6 and raises otherwise. *)
Lemma set_property_run (d : NetCfgDevice) (sender property_name : string)
    (value : GVariant) (s : @state R) :
  callback_set_property d sender property_name value s =
  if ("log_level" =? property_name) && (g_variant_get_uint32 value <=? 6)%N
  then (Ret (property_name, GVUInt32 (g_variant_get_uint32 value)),
        mkState (Some (with_log_level d (g_variant_get_uint32 value))) (heap s),
        [EvIdleCheck_UpdateTimestamp])
  else (Throw (DBusPropertyException property_name
                 (if "log_level" =? property_name
                  then "Invalid log level" else "Invalid property")),
        s, [EvIdleCheck_UpdateTimestamp]).
Proof.
  unfold callback_set_property, set_property_body, validate_sender, SetLogLevel,
    bind, emit, throw, ret.
  destruct ("log_level" =? property_name); [|reflexivity].
  cbv zeta. rewrite N.ltb_antisym.
  destruct (g_variant_get_uint32 value <=? 6)%N; reflexivity.
Qed.

(** After a property write on [d] the slot holds [d] with, at most,
    another log level, and the resolvers are the same. *)
Lemma set_property_slot (d : NetCfgDevice) (sender property_name : string)
    (value : GVariant) (store : handle -> R) :
  let r := callback_set_property d sender property_name value
             (mkState (Some d) store) in
  heap (run_state r) = store
  /\ exists d', self (run_state r) = Some d'
                /\ owner d' = owner d /\ resolver d' = resolver d
                /\ active d' = active d.
Proof.
  cbv zeta. rewrite set_property_run.
  destruct (("log_level" =? property_name) && (g_variant_get_uint32 value <=? 6)%N);
    (split; [reflexivity|]); eexists; repeat split; reflexivity.
Qed.

Lemma live_count_set_slot_uses (h : handle) (i : nat) (x v : option NetCfgDevice)
    (ds : list (option NetCfgDevice)) :
  nth_error ds i = Some x -> uses h v = uses h x ->
  live_count h (set_slot i v ds) = live_count h ds.
Proof.
  unfold live_count. revert i.
  induction ds as [|y ds IH]; intros [|i] Hnth Huses; cbn [nth_error] in Hnth;
    try discriminate.
  - injection Hnth as ->. cbn [set_slot filter]. rewrite Huses.
    destruct (uses h x); reflexivity.
  - cbn [set_slot filter]. specialize (IH i Hnth Huses).
    destruct (uses h y); cbn [length]; lia.
Qed.

End SetPropertyFacts.

Section CountInvariant.

Context {R : Type} `{ResolverCounter R}.
Variable host : Host.
Variable base : handle -> nat.

Lemma counts_live_create creator path devtype devname res level (sv : service) :
  counts_live base sv ->
  counts_live base (fst (service_step host (ReqCreate creator path devtype devname res level) sv)).
Proof.
  intros Hinv h. unfold service_step. rewrite New_run.
  cbn [fst devices resolvers heap]. rewrite live_count_app.
  cbn [uses resolver]. specialize (Hinv h).
  destruct res as [h'|]; [|lia].
  destruct (Nat.eqb_spec h' h) as [->|Hne].
  - rewrite update_same, count_Inc. specialize (Hinv). lia.
  - rewrite update_other by exact Hne. lia.
Qed.

(** The owner's [Destroy]: the count of the device's resolver goes down
    by one, the other counts stay. *)
Lemma counts_live_destroy (dev : nat) (d : NetCfgDevice) (sv : service)
    (store' : handle -> R) :
  counts_live base sv ->
  nth_error (devices sv) dev = Some (Some d) ->
  match resolver d with
  | Some h =>
      (forall h', h' <> h ->
         GetDeviceCount (store' h') = GetDeviceCount (resolvers sv h'))
      /\ GetDeviceCount (store' h) = GetDeviceCount (DecDeviceCount (resolvers sv h))
  | None => forall h', GetDeviceCount (store' h') = GetDeviceCount (resolvers sv h')
  end ->
  counts_live base (mkService (set_slot dev None (devices sv)) store').
Proof.
  intros Hinv Hnth Hstore h. cbn [devices resolvers].
  pose proof (live_count_release h dev d (devices sv) Hnth) as Hrel.
  cbn [uses] in Hrel. specialize (Hinv h).
  destruct (resolver d) as [hd|].
  - destruct Hstore as [Hothers Hown].
    destruct (Nat.eqb_spec hd h) as [->|Hne].
    + rewrite Hown.
      assert (Hpos : (0 < GetDeviceCount (resolvers sv h))%nat) by lia.
      pose proof (count_Dec _ Hpos). lia.
    + rewrite Hothers by congruence. lia.
  - rewrite Hstore. lia.
Qed.

Lemma counts_live_method_call dev conn sender method_name params (sv : service) :
  counts_live base sv ->
  counts_live base
    (fst (service_step host (ReqMethodCall dev conn sender method_name params) sv)).
Proof.
  intros Hinv. unfold service_step.
  destruct (nth_error (devices sv) dev) as [[d|]|] eqn:Hnth; try exact Hinv.
  set (s := mkState (Some d) (resolvers sv)).
  assert (Hgoal : counts_live base
            (mkService
               (set_slot dev
                  (self (run_state (callback_method_call host d conn sender method_name params s)))
                  (devices sv))
               (heap (run_state (callback_method_call host d conn sender method_name params s))))).
  { destruct (String.eqb_spec method_name "Destroy") as [->|Hne].
    - rewrite Destroy_run.
      destruct (GetUID host sender =? owner d)%N.
      + destruct (resolver d) as [h|] eqn:Hres; cbv zeta;
          [destruct (GetDeviceCount (DecDeviceCount (heap s h)) =? 0)%nat|];
          cbn [run_state fst snd self heap s];
          (apply counts_live_destroy with (d := d); [exact Hinv | exact Hnth |]);
          rewrite Hres.
        * split.
          -- intros h' Hne. rewrite !update_other by congruence. reflexivity.
          -- rewrite update_same, count_Restore. reflexivity.
        * split.
          -- intros h' Hne. rewrite update_other by congruence. reflexivity.
          -- rewrite update_same. reflexivity.
        * intros h'. reflexivity.
      + cbn [run_state fst snd self heap s].
        rewrite set_slot_same by exact Hnth. destruct sv; exact Hinv.
    - destruct (other_methods_keep host d conn sender method_name params Hne s)
        as [Hself Hcount].
      rewrite Hself. cbn [s self]. rewrite set_slot_same by exact Hnth.
      intros h. cbn [devices resolvers]. rewrite Hcount. apply Hinv. }
  destruct (callback_method_call host d conn sender method_name params s)
    as [[[a|e|] s'] t]; exact Hgoal.
Qed.

Lemma counts_live_get_property dev sender property_name (sv : service) :
  counts_live base sv ->
  counts_live base (fst (service_step host (ReqGetProperty dev sender property_name) sv)).
Proof.
  intros Hinv. unfold service_step.
  destruct (nth_error (devices sv) dev) as [[d|]|] eqn:Hnth; try exact Hinv.
  pose proof (get_property_unchanged d sender property_name
                (mkState (Some d) (resolvers sv))) as Hsame.
  unfold unchanged in Hsame.
  destruct (callback_get_property d sender property_name (mkState (Some d) (resolvers sv)))
    as [[o s'] t].
  cbn [run_state fst snd] in Hsame. subst s'. cbn [fst self heap].
  rewrite set_slot_same by exact Hnth. destruct sv; exact Hinv.
Qed.

Lemma counts_live_set_property dev sender property_name value (sv : service) :
  counts_live base sv ->
  counts_live base
    (fst (service_step host (ReqSetProperty dev sender property_name value) sv)).
Proof.
  intros Hinv. unfold service_step.
  destruct (nth_error (devices sv) dev) as [[d|]|] eqn:Hnth; try exact Hinv.
  destruct (set_property_slot d sender property_name value (resolvers sv))
    as [Hheap [d' [Hself [_ [Hres _]]]]].
  destruct (callback_set_property d sender property_name value
              (mkState (Some d) (resolvers sv))) as [[o s'] t].
  cbn [run_state fst snd] in Hheap, Hself. cbn [fst].
  intros h. cbn [devices resolvers]. rewrite Hheap, Hself.
  rewrite (live_count_set_slot_uses h dev (Some d) (Some d') (devices sv) Hnth)
    by (cbn [uses]; rewrite Hres; reflexivity).
  apply Hinv.
Qed.

Lemma counts_live_step (q : request) (sv : service) :
  counts_live base sv -> counts_live base (fst (service_step host q sv)).
Proof.
  destruct q.
  - apply counts_live_create.
  - apply counts_live_method_call.
  - apply counts_live_get_property.
  - apply counts_live_set_property.
Qed.

Lemma counts_live_run (qs : list request) (sv : service) :
  counts_live base sv -> counts_live base (service_run host qs sv).
Proof.
  revert sv. induction qs as [|q qs IH]; intros sv Hinv; [exact Hinv|].
  cbn [service_run].
  pose proof (counts_live_step q sv Hinv) as Hstep.
  destruct (service_step host q sv) as [sv' aborted]. cbn [fst] in Hstep.
  destruct aborted; [exact Hstep | apply IH, Hstep].
Qed.

End CountInvariant.

Section ActiveInvariant.

Context {R : Type} `{ResolverSettings R}.
Variable host : Host.

Lemma inactive_step (q : request) (sv : @service R) :
  Forall inactive (devices sv) ->
  Forall inactive (devices (fst (service_step host q sv))).
Proof.
  intros Hinv. destruct q as [creator path devtype devname res level
                             | dev conn sender method_name params
                             | dev sender property_name
                             | dev sender property_name value]; unfold service_step.
  - rewrite New_run. cbn [fst devices].
    apply Forall_app. split; [exact Hinv|]. constructor; [reflexivity | constructor].
  - destruct (nth_error (devices sv) dev) as [[d|]|] eqn:Hnth; try exact Hinv.
    pose proof (method_call_same_or_gone host d conn sender method_name params
                  (mkState (Some d) (resolvers sv))) as Hself.
    unfold same_or_gone in Hself.
    assert (Hd : inactive (Some d)).
    { apply (proj1 (Forall_forall inactive (devices sv)) Hinv).
      eapply nth_error_In, Hnth. }
    destruct (callback_method_call host d conn sender method_name params
                (mkState (Some d) (resolvers sv))) as [[o s'] t].
    cbn [run_state fst snd self] in Hself.
    assert (Hslot : inactive (self s')) by (destruct Hself as [-> | ->]; [exact Hd | exact I]).
    destruct o; cbn [fst devices]; apply Forall_set_slot; assumption.
  - destruct (nth_error (devices sv) dev) as [[d|]|] eqn:Hnth; try exact Hinv.
    pose proof (get_property_unchanged d sender property_name
                  (mkState (Some d) (resolvers sv))) as Hsame.
    unfold unchanged in Hsame.
    destruct (callback_get_property d sender property_name
                (mkState (Some d) (resolvers sv))) as [[o s'] t].
    cbn [run_state fst snd] in Hsame. subst s'. cbn [fst devices self].
    rewrite set_slot_same by exact Hnth. exact Hinv.
  - destruct (nth_error (devices sv) dev) as [[d|]|] eqn:Hnth; try exact Hinv.
    destruct (set_property_slot d sender property_name value (resolvers sv))
      as [_ [d' [Hself [_ [_ Hactive]]]]].
    assert (Hd : inactive (Some d)).
    { apply (proj1 (Forall_forall inactive (devices sv)) Hinv).
      eapply nth_error_In, Hnth. }
    destruct (callback_set_property d sender property_name value
                (mkState (Some d) (resolvers sv))) as [[o s'] t].
    cbn [run_state fst snd] in Hself. cbn [fst devices]. rewrite Hself.
    apply Forall_set_slot; [exact Hinv|]. cbn [inactive] in *. congruence.
Qed.

Lemma inactive_run (qs : list request) (sv : @service R) :
  Forall inactive (devices sv) ->
  Forall inactive (devices (service_run host qs sv)).
Proof.
  revert sv. induction qs as [|q qs IH]; intros sv Hinv; [exact Hinv|].
  cbn [service_run].
  pose proof (inactive_step q sv Hinv) as Hstep.
  destruct (service_step host q sv) as [sv' aborted]. cbn [fst] in Hstep.
  destruct aborted; [exact Hstep | apply IH, Hstep].
Qed.

End ActiveInvariant.

(** The resolver of the concrete service is a counter. *)
Lemma ResolvConf_counter : ResolverCounter ResolvConf.t.
Proof.
  split; intros; cbn;
    unfold ResolvConf.apply, ResolvConf.restore;
    try match goal with
        | |- context [match ?x with Some _ => _ | None => _ end] => destruct x
        end;
    cbn in *; try reflexivity.
  lia.
Qed.

(** ** Properties of the service *)

Section ServiceProperties.

Context {R : Type} `{ResolverSettings R}.
Variable host : Host.

(** C6, as the code has it.  Whatever requests a service has served,
    [Establish] and [Disable] calls included, the [active] property of
    every registered device reads false: a new device has the flag
    unset and no callback assigns it. *)
Theorem active_always_reads_false (qs : list request) (store : handle -> R) :
  Forall (fun slot =>
            match slot with
            | Some d =>
                forall sender (s : @state R),
                  callback_get_property d sender "active" s =
                  (Ret (GVBoolean false), s, [EvIdleCheck_UpdateTimestamp])
            | None => True
            end)
         (devices (service_run host qs (mkService [] store))).
Proof.
  eapply Forall_impl; [|apply (inactive_run host qs), Forall_nil].
  intros [d|] Hd; [|exact I].
  intros sender s. rewrite get_active_run. cbn [inactive] in Hd.
  rewrite Hd. reflexivity.
Qed.

End ServiceProperties.

Section EstablishAndStubs.

Context {R : Type} `{ResolverSettings R}.
Variable host : Host.


(** C8, as the code has it.  [RemoveIPv4Address], [RemoveIPv6Address]
    and [RemoveRoutes] have an empty body: whatever record the call
    names, it is answered with an empty value and changes neither the
    object nor any resolver; the address and route properties read
    empty. *)
Theorem remove_calls_succeed
    (d : NetCfgDevice) conn sender params (s : state) :
  Forall (fun method_name =>
            callback_method_call host d conn sender method_name params s =
            (Ret tt, s, [EvIdleCheck_UpdateTimestamp; EvReturnValue]))
         ["RemoveIPv4Address"; "RemoveIPv6Address"; "RemoveRoutes"]
  /\
  Forall (fun property_name =>
            callback_get_property d sender property_name s =
            (Ret (GVStrv []), s, [EvIdleCheck_UpdateTimestamp]))
         ["ipv4_addresses"; "ipv4_routes"; "ipv6_addresses"; "ipv6_routes"].
Proof.
  split.
  - repeat constructor; apply stub_run; cbn; tauto.
  - repeat constructor.
Qed.

(** The four DNS methods of a device without a resolver fail with the
    error reply that carries "No resolver configured". *)
Lemma dns_methods_need_resolver
    (d : NetCfgDevice) conn sender method_name params (s : state) :
  resolver d = None ->
  In method_name ["AddDNS"; "RemoveDNS"; "AddDNSSearch"; "RemoveDNSSearch"] ->
  callback_method_call host d conn sender method_name params s =
  (Ret tt, s, [EvIdleCheck_UpdateTimestamp;
               generic_error method_name "No resolver configured"]).
Proof.
  intros Hnone Hin. cbn [In] in Hin.
  repeat (destruct Hin as [<- | Hin];
          [unfold callback_method_call, method_call_body, require_resolver;
           rewrite Hnone; reflexivity|]).
  contradiction.
Qed.

End EstablishAndStubs.

(** ** The concrete service *)

Module Runs.

Import Scenario.

(** C9.  After [AddDNS] and [AddDNSSearch] calls through a device with a
    resolver, the resolver holds the new server and the new search
    domain; the [dns_servers] property reads the servers of the
    resolver, the [dns_search] property reads an empty list. *)
Theorem dns_search_is_not_read_through :
  let r1 := callback_method_call host tun0 conn ":1.42" "AddDNS"
              (GVStrv ["10.8.0.53"]) start in
  let r2 := callback_method_call host tun0 conn ":1.42" "AddDNSSearch"
              (GVStrv ["vpn.example.org"]) (run_state r1) in
  let s2 := run_state r2 in
  run_trace r2 = [EvIdleCheck_UpdateTimestamp;
                  EvResolver 0 (CallAddDNSSearch (GVStrv ["vpn.example.org"]));
                  EvReturnValue]
  /\ ResolvConf.servers (heap s2 0) = ["10.8.0.1"; "10.8.0.53"]
  /\ ResolvConf.search (heap s2 0) = ["example.org"; "vpn.example.org"]
  /\ run_outcome (callback_get_property tun0 ":1.42" "dns_servers" s2)
     = Ret (GVStrv ["10.8.0.1"; "10.8.0.53"])
  /\ run_outcome (callback_get_property tun0 ":1.42" "dns_search" s2)
     = Ret (GVStrv []).
Proof. cbv zeta. repeat split; reflexivity. Qed.


(** C6, against the claim.  An [Establish] call is answered with the fd
    list and no error, and the [active] property of the device still
    does not read true. *)
Lemma active_after_establish_counterexample :
  let r := callback_method_call host tun0 conn ":1.42" "Establish"
             (GVStrv []) start in
  In (EvReturnValueWithFdList []) (run_trace r)
  /\ existsb is_error_reply (run_trace r) = false
  /\ self (run_state r) = Some tun0
  /\ run_outcome (callback_get_property tun0 ":1.42" "active" (run_state r))
     <> Ret (GVBoolean true).
Proof.
  cbv zeta. split; [cbn; tauto|]. split; [reflexivity|]. split; [reflexivity|].
  discriminate.
Qed.

(** C8, against the claim.  The device holds no address ([ipv4_addresses]
    reads empty), so 10.8.0.2/24 is not present; the call removing it is
    answered with an empty value and no error reply is sent. *)
Lemma remove_absent_address_counterexample :
  let r := callback_method_call host tun0 conn ":1.42" "RemoveIPv4Address"
             (GVAddress "10.8.0.2" 24) start in
  run_outcome (callback_get_property tun0 ":1.42" "ipv4_addresses" start)
  = Ret (GVStrv [])
  /\ run_trace r = [EvIdleCheck_UpdateTimestamp; EvReturnValue]
  /\ existsb is_error_reply (run_trace r) <> true.
Proof. cbv zeta. split; [reflexivity|]. split; [reflexivity | discriminate]. Qed.

(** A denied, then an accepted [Destroy]. *)
Lemma destroy_requires_owner_witness :
  let r := callback_method_call host tun0 conn ":1.7" "Destroy" (GVStrv []) start in
  r = (Ret tt, start,
       [EvIdleCheck_UpdateTimestamp; EvLogCritical "Owner access denied";
        EvSetDBusError (DBusCredentialsException (GetUID host ":1.7")
                          "net.openvpn.v3.error.acl.denied" "Owner access denied")])
  /\
  let r' := callback_method_call host tun0 conn ":1.42" "Destroy" (GVStrv [])
              (run_state r) in
  run_outcome r' = Ret tt
  /\ self (run_state r') = None
  /\ (exists before, run_trace r' = before ++ Destroy_tail host tun0 ":1.42")
  /\ existsb is_error_reply (run_trace r') = false.
Proof.
  apply (destroy_requires_owner host tun0 conn ":1.7" ":1.42" (GVStrv []) start).
  - discriminate.
  - reflexivity.
Defined.

(** [Establish] on a resolver whose [Apply] fails. *)
Lemma establish_applies_first_witness :
  let r := callback_method_call host tun0 conn ":1.42" "Establish" (GVStrv [])
             start_failing in
  run_outcome r = Ret tt
  /\ run_trace r = [EvIdleCheck_UpdateTimestamp; EvResolver 0 CallApply;
                    generic_error "Establish" "Failed writing resolv.conf"]
  /\ existsb is_fd_event (run_trace r) = false
  /\ self (run_state r) = self start_failing.
Proof.
  exact (establish_applies_first host tun0 conn ":1.42" (GVStrv []) start_failing 0
           eq_refl eq_refl eq_refl).
Defined.

(** [Disable] and [Destroy] on a resolver whose [Restore] fails. *)
Lemma restore_failure_is_logged_only_witness :
  callback_method_call host tun0 conn ":1.42" "Disable" (GVStrv []) start_failing =
  (Ret tt, mkState (Some tun0) (update 0 failing (fun _ => failing)),
   [EvIdleCheck_UpdateTimestamp; EvResolver 0 CallRestore;
    EvLogCritical "Failed restoring resolv.conf"; EvReturnValue])
  /\
  run_trace (callback_method_call host tun0 conn ":1.42" "Destroy" (GVStrv [])
               start_failing) =
  [EvIdleCheck_UpdateTimestamp; EvResolver 0 CallDecDeviceCount;
   EvResolver 0 CallRestore; EvLogCritical "Failed restoring resolv.conf";
   EvLogVerb1 "Device 'tun0' was removed by alice";
   EvRemoveObject; EvReturnValue; EvRemoveCallback; EvIdleCheck_RefDec].
Proof.
  destruct (restore_failure_is_logged_only host tun0 conn ":1.42" (GVStrv [])
              start_failing 0 "Failed restoring resolv.conf" eq_refl)
    as [HDisable HDestroy].
  split.
  - apply HDisable; [cbn; lia | reflexivity].
  - rewrite HDestroy; reflexivity.
Defined.


(** A misspelled and a lower-case method name. *)
Lemma unknown_method_succeeds_witness :
  callback_method_call host tun0 conn ":1.42" "Destory" (GVStrv []) start =
  (Ret tt, start, [EvIdleCheck_UpdateTimestamp; EvReturnValue])
  /\
  callback_method_call host tun0 conn ":1.42" "establish" (GVStrv []) start =
  (Ret tt, start, [EvIdleCheck_UpdateTimestamp; EvReturnValue]).
Proof.
  split; apply (unknown_method_succeeds host tun0 conn ":1.42" _ (GVStrv []) start);
    cbn; intuition discriminate.
Defined.

End Runs.

(** ** Further facts: every method, one by one *)

Ltac run_callback :=
  unfold callback_method_call, method_call_body, method_call_catch,
    require_resolver, validate_sender, resolver_do, bind, emit, throw, ret;
  cbn [String.eqb Ascii.eqb Bool.eqb fst snd self heap app].

Section MethodRuns.

Context {R : Type} `{ResolverSettings R}.
Variable host : Host.

(** A DNS method: one call on the resolver of the device, whose failure
    becomes the error reply; no resolver, no call. *)
Lemma DNS_run (d : NetCfgDevice) conn sender params (s : state) method_name c op :
  In (method_name, c, op) dns_methods ->
  callback_method_call host d conn sender method_name params s =
  match resolver d with
  | Some h =>
      (Ret tt, mkState (self s) (update h (fst (op params (heap s h))) (heap s)),
       [EvIdleCheck_UpdateTimestamp; EvResolver h (c params);
        match snd (op params (heap s h)) with
        | Some what => generic_error method_name what
        | None => EvReturnValue
        end])
  | None =>
      (Ret tt, s, [EvIdleCheck_UpdateTimestamp;
                   generic_error method_name "No resolver configured"])
  end.
Proof.
  unfold dns_methods. cbn [In]. intros Hin.
  repeat (destruct Hin as [Heq | Hin];
          [injection Heq as <- <- <-; run_callback;
           destruct (resolver d) as [h|]; [|reflexivity];
           cbn [fst snd self heap app];
           match goal with
           | |- context [let (_, _) := ?x in _] => destruct x as [r' [what|]]
           end; reflexivity|]).
  contradiction.
Qed.

(** The six classes of method names. *)
Lemma method_name_cases (method_name : string) :
  In method_name ["AddIPv4Address"; "RemoveIPv4Address"; "AddIPv6Address";
                  "RemoveIPv6Address"; "AddRoutes"; "RemoveRoutes"]
  \/ (exists c op, In (method_name, c, op) (dns_methods (R:=R)))
  \/ method_name = "Establish"
  \/ method_name = "Disable"
  \/ method_name = "Destroy"
  \/ ~ In method_name dispatched_methods.
Proof.
  destruct (in_dec string_dec method_name dispatched_methods) as [Hin|Hnot];
    [|tauto].
  unfold dispatched_methods in Hin. cbn [In] in Hin.
  unfold dns_methods. cbn [In].
  repeat (destruct Hin as [<- | Hin];
          [first [ left; tauto
                 | right; left; do 2 eexists; first [ left; reflexivity
                                                     | right; left; reflexivity
                                                     | right; right; left; reflexivity
                                                     | right; right; right; left; reflexivity ]
                 | tauto ]|]).
  contradiction.
Qed.

End MethodRuns.

Ltac stub_cases Hstub :=
  cbn [In] in Hstub;
  repeat (destruct Hstub as [<- | Hstub]; [reflexivity|]);
  contradiction.

Ltac dns_cases host d conn sender params s Hdns tac :=
  let Hrun := fresh "Hrun" in
  pose proof (DNS_run host d conn sender params s _ _ _ Hdns) as Hrun;
  unfold dns_methods in Hdns; cbn [In] in Hdns;
  repeat (let Heq := fresh "Heq" in
          destruct Hdns as [Heq | Hdns];
          [injection Heq as <- <- <-; rewrite Hrun; tac|]);
  contradiction.

Ltac undispatched_false Hnot name method_name :=
  let E := fresh "E" in
  assert (E : (name =? method_name) = false)
    by (apply String.eqb_neq; intros E; apply Hnot; rewrite <- E; cbn; tauto);
  rewrite E; clear E.

Section EveryMethod.

Context {R : Type} `{ResolverSettings R}.
Variable host : Host.

(** No exception leaves [callback_method_call]: the call returns, unless
    it is an [Establish] on a connection without fd passing, where the
    assertion stops the process. *)
Theorem method_call_never_throws
    (d : NetCfgDevice) conn sender method_name params (s : state) :
  run_outcome (callback_method_call host d conn sender method_name params s) =
  if ("Establish" =? method_name) && negb (unix_fd_passing conn)
  then Abort else Ret tt.
Proof.
  destruct (method_name_cases (R:=R) method_name)
    as [Hstub | [[c [op Hdns]] | [-> | [-> | [-> | Hnot]]]]].
  - stub_cases Hstub.
  - dns_cases host d conn sender params s Hdns
      ltac:(destruct (resolver d); reflexivity).
  - rewrite Establish_run.
    destruct (unix_fd_passing conn); [|reflexivity].
    destruct (resolver d) as [h|]; [|reflexivity].
    destruct (GetModified (heap s h)); [|reflexivity]. cbv zeta.
    destruct (snd (Apply (heap s h))); reflexivity.
  - rewrite Disable_run.
    destruct (resolver d) as [h|]; [|reflexivity].
    destruct (GetDeviceCount (heap s h) <=? 1)%nat; reflexivity.
  - rewrite Destroy_run.
    destruct (GetUID host sender =? owner d)%N; [|reflexivity].
    destruct (resolver d) as [h|]; [|reflexivity]. cbv zeta.
    destruct (GetDeviceCount (DecDeviceCount (heap s h)) =? 0)%nat; reflexivity.
  - rewrite undispatched_run by exact Hnot.
    undispatched_false Hnot "Establish" method_name. reflexivity.
Qed.

(** Every call to a method other than [Establish] is answered exactly
    once, with a value or with an error. *)
Theorem one_reply_per_call
    (d : NetCfgDevice) conn sender method_name params (s : state) :
  method_name <> "Establish" ->
  replies (run_trace (callback_method_call host d conn sender method_name params s)) = 1%nat.
Proof.
  intros Hne.
  destruct (method_name_cases (R:=R) method_name)
    as [Hstub | [[c [op Hdns]] | [-> | [-> | [-> | Hnot]]]]].
  - stub_cases Hstub.
  - dns_cases host d conn sender params s Hdns
      ltac:(destruct (resolver d) as [h|]; [|reflexivity];
            cbn [run_trace snd];
            match goal with
            | |- context [match ?x with Some _ => _ | None => _ end] => destruct x
            end; reflexivity).
  - contradiction.
  - rewrite Disable_run.
    destruct (resolver d) as [h|]; [|reflexivity].
    destruct (GetDeviceCount (heap s h) <=? 1)%nat; [|reflexivity].
    destruct (snd (Restore (heap s h))); reflexivity.
  - rewrite Destroy_run.
    destruct (GetUID host sender =? owner d)%N; [|reflexivity].
    destruct (resolver d) as [h|]; [|reflexivity]. cbv zeta.
    destruct (GetDeviceCount (DecDeviceCount (heap s h)) =? 0)%nat; [|reflexivity].
    destruct (snd (Restore (DecDeviceCount (heap s h)))); reflexivity.
  - rewrite undispatched_run by exact Hnot. reflexivity.
Qed.

(** An [Establish] call that hands the fd list over (the resolver step
    has not failed and [error] is not found set) is answered twice: the
    reply with the list is followed by the common reply at the end of
    the callback.  A failed one is answered once, an aborted one not at
    all. *)
Theorem establish_reply_count
    (d : NetCfgDevice) conn sender params (s : state) :
  replies (run_trace (callback_method_call host d conn sender "Establish" params s)) =
  if unix_fd_passing conn then
    match run_outcome (Establish_apply d s) with
    | Ret _ => if error_uninitialised host then 1%nat else 2%nat
    | _ => 1%nat
    end
  else 0%nat.
Proof.
  rewrite Establish_run.
  unfold Establish_apply, handoff_events, bind, deref, ret, resolver_do.
  destruct (unix_fd_passing conn); [|reflexivity].
  destruct (resolver d) as [h|]; cbn [fst snd heap self run_outcome run_trace].
  - destruct (GetModified (heap s h)).
    + destruct (Apply (heap s h)) as [r' [what|]];
        cbn [fst snd heap self run_outcome run_trace]; [reflexivity|].
      destruct (error_uninitialised host);
        reflexivity.
    + destruct (error_uninitialised host);
        reflexivity.
  - destruct (error_uninitialised host);
      reflexivity.
Qed.

(** No method assigns a member of the object: after a call the object
    is exactly as before, unless the call is a [Destroy] by the owner,
    which releases it. *)
Theorem object_released_only_by_owner_destroy
    (d : NetCfgDevice) conn sender method_name params (s : state) :
  self (run_state (callback_method_call host d conn sender method_name params s)) =
  if ("Destroy" =? method_name) && (GetUID host sender =? owner d)%N
  then None else self s.
Proof.
  destruct (method_name_cases (R:=R) method_name)
    as [Hstub | [[c [op Hdns]] | [-> | [-> | [-> | Hnot]]]]].
  - stub_cases Hstub.
  - dns_cases host d conn sender params s Hdns
      ltac:(destruct (resolver d); reflexivity).
  - rewrite Establish_run.
    destruct (unix_fd_passing conn); [|reflexivity].
    destruct (resolver d) as [h|]; [|reflexivity].
    destruct (GetModified (heap s h)); [|reflexivity]. cbv zeta.
    destruct (snd (Apply (heap s h))); reflexivity.
  - rewrite Disable_run.
    destruct (resolver d) as [h|]; [|reflexivity].
    destruct (GetDeviceCount (heap s h) <=? 1)%nat; reflexivity.
  - rewrite Destroy_run.
    destruct (GetUID host sender =? owner d)%N; [|reflexivity].
    destruct (resolver d) as [h|]; [|reflexivity]. cbv zeta.
    destruct (GetDeviceCount (DecDeviceCount (heap s h)) =? 0)%nat; reflexivity.
  - rewrite undispatched_run by exact Hnot.
    undispatched_false Hnot "Destroy" method_name. reflexivity.
Qed.

End EveryMethod.

Section Frames.

Context {R : Type} `{ResolverSettings R}.
Variable host : Host.

(** A call changes no resolver but the one the device was constructed
    with, and every resolver call it makes is made on that one. *)
Theorem only_own_resolver_is_touched
    (d : NetCfgDevice) conn sender method_name params (s : state) :
  let r := callback_method_call host d conn sender method_name params s in
  (forall h', resolver d <> Some h' -> heap (run_state r) h' = heap s h')
  /\ Forall (fun call => resolver d = Some (fst call)) (resolver_calls (run_trace r)).
Proof.
  cbv zeta.
  assert (Hframe : forall h h' (r1 : R) (m : handle -> R),
             Some h <> Some h' -> update h r1 m h' = m h').
  { intros h h' r1 m Hne. apply update_other. congruence. }
  destruct (method_name_cases (R:=R) method_name)
    as [Hstub | [[c [op Hdns]] | [-> | [-> | [-> | Hnot]]]]].
  - rewrite stub_run by exact Hstub. split; [reflexivity | constructor].
  - dns_cases host d conn sender params s Hdns
      ltac:(destruct (resolver d) as [h|]; cbn [run_state run_trace fst snd heap];
            [split; [intros h' Hne; apply Hframe, Hne|];
             match goal with
             | |- context [match ?x with Some _ => _ | None => _ end] => destruct x
             end; repeat constructor
            | split; [reflexivity | constructor]]).
  - rewrite Establish_run. unfold handoff_events.
    destruct (unix_fd_passing conn); [|split; [reflexivity | constructor]].
    destruct (resolver d) as [h|].
    + destruct (GetModified (heap s h)); cbv zeta.
      * destruct (snd (Apply (heap s h)));
          cbn [run_state run_trace fst snd heap];
          (split; [intros h' Hne; apply Hframe, Hne|]);
          destruct (error_uninitialised host);
          repeat constructor.
      * destruct (error_uninitialised host);
          (split; [reflexivity | constructor]).
    + destruct (error_uninitialised host);
        (split; [reflexivity | constructor]).
  - rewrite Disable_run.
    destruct (resolver d) as [h|]; [|split; [reflexivity | constructor]].
    destruct (GetDeviceCount (heap s h) <=? 1)%nat; [|split; [reflexivity | constructor]].
    cbn [run_state run_trace fst snd heap].
    split; [intros h' Hne; apply Hframe, Hne|].
    destruct (snd (Restore (heap s h))); repeat constructor.
  - rewrite Destroy_run.
    destruct (GetUID host sender =? owner d)%N; [|split; [reflexivity | constructor]].
    destruct (resolver d) as [h|]; [|split; [reflexivity | constructor]]. cbv zeta.
    destruct (GetDeviceCount (DecDeviceCount (heap s h)) =? 0)%nat;
      cbn [run_state run_trace fst snd heap].
    + split; [intros h' Hne; rewrite !Hframe by exact Hne; reflexivity|].
      destruct (snd (Restore (DecDeviceCount (heap s h)))); repeat constructor.
    + split; [intros h' Hne; apply Hframe, Hne | repeat constructor].
  - rewrite undispatched_run by exact Hnot. split; [reflexivity | constructor].
Qed.

(** [validate_sender] is disabled: a call to a method other than
    [Destroy] does the same whoever sends it, and so do property reads
    and writes. *)
Theorem sender_is_checked_by_destroy_only
    (d : NetCfgDevice) conn sender sender' method_name params property_name value
    (s : state) :
  method_name <> "Destroy" ->
  callback_method_call host d conn sender method_name params s =
  callback_method_call host d conn sender' method_name params s
  /\ callback_get_property d sender property_name s =
     callback_get_property d sender' property_name s
  /\ callback_set_property d sender property_name value s =
     callback_set_property d sender' property_name value s.
Proof.
  intros Hne. split; [|split; reflexivity].
  unfold callback_method_call, method_call_body, validate_sender.
  replace ("Destroy" =? method_name) with false
    by (symmetry; apply String.eqb_neq; congruence).
  reflexivity.
Qed.

(** [Establish] makes at most one resolver call, [Apply], and makes it
    only when the connection passes the assertion and the resolver of
    the device reports modified state. *)
Theorem establish_resolver_calls
    (d : NetCfgDevice) conn sender params (s : state) :
  resolver_calls
    (run_trace (callback_method_call host d conn sender "Establish" params s)) =
  match resolver d with
  | Some h =>
      if unix_fd_passing conn && GetModified (heap s h)
      then [(h, CallApply)] else []
  | None => []
  end.
Proof.
  rewrite Establish_run. unfold handoff_events.
  destruct (unix_fd_passing conn); [|destruct (resolver d); reflexivity].
  destruct (resolver d) as [h|].
  - destruct (GetModified (heap s h)); cbv zeta.
    + destruct (snd (Apply (heap s h))); [reflexivity|].
      destruct (error_uninitialised host);
        reflexivity.
    + destruct (error_uninitialised host);
        reflexivity.
  - destruct (error_uninitialised host);
      reflexivity.
Qed.

(** A DNS method of a device with a resolver makes one call, its own,
    on that resolver and keeps the state the call leaves; the reply is
    an empty value, or the error carrying the message of the resolver
    when the call raises.  Without a resolver the reply is the error "No
    resolver configured" and nothing changes. *)
Theorem dns_method_delegates
    (d : NetCfgDevice) conn sender params (s : state) method_name c op :
  In (method_name, c, op) dns_methods ->
  callback_method_call host d conn sender method_name params s =
  match resolver d with
  | Some h =>
      (Ret tt, mkState (self s) (update h (fst (op params (heap s h))) (heap s)),
       [EvIdleCheck_UpdateTimestamp; EvResolver h (c params);
        match snd (op params (heap s h)) with
        | Some what => generic_error method_name what
        | None => EvReturnValue
        end])
  | None =>
      (Ret tt, s, [EvIdleCheck_UpdateTimestamp;
                   generic_error method_name "No resolver configured"])
  end.
Proof. apply DNS_run. Qed.

End Frames.

(** ** Further facts: the property callbacks and the constructor *)

Section PropertyCallbacks.

Context {R : Type} `{ResolverSettings R}.

(** A property read returns a value exactly for the thirteen properties
    the introspection document declares; any other name raises "Invalid
    property".  Either way nothing changes. *)
Theorem declared_properties_are_the_readable_ones
    (d : NetCfgDevice) (sender property_name : string) (s : @state R) :
  if existsb (String.eqb property_name) (map fst introspected_properties)
  then exists v, callback_get_property d sender property_name s =
                 (Ret v, s, [EvIdleCheck_UpdateTimestamp])
  else callback_get_property d sender property_name s =
       (Throw (DBusPropertyException property_name "Invalid property"), s,
        [EvIdleCheck_UpdateTimestamp]).
Proof.
  destruct (existsb (String.eqb property_name) (map fst introspected_properties))
    eqn:Hdeclared.
  - apply existsb_exists in Hdeclared. destruct Hdeclared as [name [Hin Heq]].
    apply String.eqb_eq in Heq. subst name.
    cbn [map fst introspected_properties In] in Hin.
    unfold callback_get_property, get_property_body, validate_sender,
      bind, emit, ret, deref.
    destruct (resolver d) as [h|];
      repeat (destruct Hin as [<- | Hin]; [eexists; reflexivity|]);
      contradiction.
  - assert (Hne : forall name, In name (map fst introspected_properties) ->
                    (property_name =? name) = false).
    { intros name Hin. destruct (property_name =? name) eqn:Hn; [|reflexivity].
      assert (Hex : existsb (String.eqb property_name)
                      (map fst introspected_properties) = true)
        by (apply existsb_exists; eauto).
      congruence. }
    assert (Hne' : forall name, In name (map fst introspected_properties) ->
                     (name =? property_name) = false).
    { intros name Hin. rewrite String.eqb_sym. apply Hne, Hin. }
    unfold callback_get_property, get_property_body, validate_sender,
      properties_Exists.
    cbn [existsb].
    rewrite !Hne' by (cbn; tauto). rewrite !Hne by (cbn; tauto).
    reflexivity.
Qed.

(** Writing [log_level]: a level up to 6 is stored and read back, and
    no other property reads differently afterwards; a level above 6 is
    refused with "Invalid log level" and nothing changes. *)
Theorem log_level_write_read
    (d : NetCfgDevice) (sender sender' : string) (n : N) (s : @state R) :
  let w := callback_set_property d sender "log_level" (GVUInt32 n) s in
  if (n <=? 6)%N then
    w = (Ret ("log_level", GVUInt32 n),
         mkState (Some (with_log_level d n)) (heap s),
         [EvIdleCheck_UpdateTimestamp])
    /\ run_outcome (callback_get_property (with_log_level d n) sender' "log_level"
                      (run_state w)) = Ret (GVUInt32 n)
    /\ (forall property_name s',
          property_name <> "log_level" ->
          callback_get_property (R:=R) (with_log_level d n) sender' property_name s' =
          callback_get_property d sender' property_name s')
  else
    w = (Throw (DBusPropertyException "log_level" "Invalid log level"), s,
         [EvIdleCheck_UpdateTimestamp]).
Proof.
  cbv zeta.
  unfold callback_set_property, set_property_body, validate_sender, SetLogLevel,
    bind, emit, throw, ret.
  cbn [String.eqb Ascii.eqb Bool.eqb g_variant_get_uint32].
  rewrite N.ltb_antisym.
  destruct (n <=? 6)%N; cbn [negb]; [|reflexivity].
  split; [reflexivity|]. split; [reflexivity|].
  intros property_name s' Hne.
  unfold callback_get_property, get_property_body.
  replace ("log_level" =? property_name) with false
    by (symmetry; apply String.eqb_neq; congruence).
  reflexivity.
Qed.

(** [log_level] is the only property that can be written: a write to
    any other one, [mtu] included although it is declared readwrite, is
    refused with "Invalid property" and changes nothing. *)
Theorem only_log_level_is_writable
    (d : NetCfgDevice) (sender property_name : string) (value : GVariant)
    (s : @state R) :
  property_name <> "log_level" ->
  callback_set_property d sender property_name value s =
  (Throw (DBusPropertyException property_name "Invalid property"), s,
   [EvIdleCheck_UpdateTimestamp])
  /\ In ("mtu", "readwrite") introspected_properties.
Proof.
  intros Hne. split; [|cbn; tauto].
  unfold callback_set_property, set_property_body, validate_sender.
  replace ("log_level" =? property_name) with false
    by (symmetry; apply String.eqb_neq; congruence).
  reflexivity.
Qed.

(** What the constructor is given reads back through the properties of
    the new device: owner, name and log level; the MTU reads 1500, the
    flag and the lists read unset and empty; the resolver, when there is
    one, gets exactly one call, [IncDeviceCount]. *)
Theorem constructor_reads_back
    creator path devtype devname res level (sender : string) (s : @state R) :
  let c := NetCfgDevice_new creator path devtype devname res level s in
  exists d,
    run_outcome c = Ret d
    /\ Forall (fun expected =>
                 run_outcome (callback_get_property d sender (fst expected) (run_state c))
                 = Ret (snd expected))
              [("owner", GVUInt32 creator); ("device_name", GVString devname);
               ("log_level", GVUInt32 level); ("mtu", GVUInt32 1500);
               ("active", GVBoolean false); ("acl", GVUInt32v []);
               ("dns_search", GVStrv []); ("ipv4_addresses", GVStrv [])]
    /\ resolver_calls (run_trace c) =
       match res with
       | Some h => [(h, CallIncDeviceCount)]
       | None => []
       end.
Proof.
  cbv zeta. rewrite New_run. eexists. split; [reflexivity|].
  split; [repeat constructor | destruct res; reflexivity].
Qed.

End PropertyCallbacks.

(** ** Further facts: sequences of calls on a counting resolver *)

Section Sequences.

Context {R : Type} `{ResolverCounter R}.
Variable host : Host.

(** A device that is the only one on its resolver: [Disable] calls
    [Restore], and the owner's [Destroy] after it decrements the count
    and calls [Restore] a second time. *)
Theorem disable_then_destroy_restores_twice
    (d : NetCfgDevice) conn sender params (s : state) (h : handle) :
  resolver d = Some h ->
  GetDeviceCount (heap s h) = 1%nat ->
  GetUID host sender = owner d ->
  let r1 := callback_method_call host d conn sender "Disable" params s in
  let r2 := callback_method_call host d conn sender "Destroy" params (run_state r1) in
  resolver_calls (run_trace r1 ++ run_trace r2) =
  [(h, CallRestore); (h, CallDecDeviceCount); (h, CallRestore)]
  /\ self (run_state r2) = None
  /\ GetDeviceCount (heap (run_state r2) h) = 0%nat.
Proof.
  intros Hres Hcount Howner. apply N.eqb_eq in Howner. cbv zeta.
  rewrite Disable_run, Hres, Hcount. cbn [Nat.leb run_state run_trace fst snd].
  rewrite Destroy_run, Hres, Howner. cbv zeta. cbn [heap].
  rewrite update_same.
  set (r1 := fst (Restore (heap s h))).
  assert (Hr1 : GetDeviceCount r1 = 1%nat)
    by (unfold r1; rewrite count_Restore; exact Hcount).
  assert (Hdec : GetDeviceCount (DecDeviceCount r1) = 0%nat).
  { pose proof (count_Dec r1) as Hd. rewrite Hr1 in Hd. specialize (Hd Nat.lt_0_1). lia. }
  rewrite Hdec. cbn [Nat.eqb run_state run_trace fst snd self heap].
  rewrite !resolver_calls_app, update_same, count_Restore, Hdec.
  split; [|split; reflexivity].
  destruct (snd (Restore (heap s h))), (snd (Restore (DecDeviceCount r1))); reflexivity.
Qed.

(** Constructing a device on a resolver and destroying it (by its
    creator) leaves every device count as it was; [Restore] is called on
    the way exactly when no other device was counted. *)
Theorem construct_then_destroy_restores_count
    creator path devtype devname (h : handle) level conn sender params (s : state) :
  GetUID host sender = creator ->
  let c := NetCfgDevice_new creator path devtype devname (Some h) level s in
  exists d,
    run_outcome c = Ret d
    /\ let r := callback_method_call host d conn sender "Destroy" params (run_state c) in
       self (run_state r) = None
       /\ (forall h', GetDeviceCount (heap (run_state r) h') = GetDeviceCount (heap s h'))
       /\ resolver_calls (run_trace c ++ run_trace r) =
          (h, CallIncDeviceCount) :: (h, CallDecDeviceCount)
          :: (if (GetDeviceCount (heap s h) =? 0)%nat then [(h, CallRestore)] else []).
Proof.
  intros Howner. apply N.eqb_eq in Howner. cbv zeta.
  rewrite New_run. eexists. split; [reflexivity|].
  cbn [run_state run_trace fst snd].
  rewrite Destroy_run. cbn [owner resolver]. rewrite Howner. cbv zeta. cbn [heap].
  rewrite update_same.
  assert (Hdec : GetDeviceCount (DecDeviceCount (IncDeviceCount (heap s h)))
                 = GetDeviceCount (heap s h)).
  { pose proof (count_Dec (IncDeviceCount (heap s h))) as Hd.
    rewrite count_Inc in Hd. specialize (Hd (Nat.lt_0_succ _)). lia. }
  rewrite Hdec.
  assert (Hcounts : forall (r' : R) h',
             GetDeviceCount r' = GetDeviceCount (heap s h) ->
             GetDeviceCount (update h r' (heap s) h') = GetDeviceCount (heap s h')).
  { intros r' h' Hr'. destruct (Nat.eq_dec h h') as [<-|Hne].
    - rewrite update_same. exact Hr'.
    - rewrite update_other by exact Hne. reflexivity. }
  assert (Hover : forall (r1 r2 : R) (m : handle -> R) h',
             update h r2 (update h r1 m) h' = update h r2 m h').
  { intros r1 r2 m h'. unfold update. destruct (Nat.eqb h h'); reflexivity. }
  destruct (GetDeviceCount (heap s h) =? 0)%nat;
    cbn [run_state run_trace fst snd self heap];
    (split; [reflexivity|]); split.
  - intros h'. rewrite !Hover. apply Hcounts. rewrite count_Restore. exact Hdec.
  - destruct (snd (Restore (DecDeviceCount (IncDeviceCount (heap s h))))); reflexivity.
  - intros h'. rewrite Hover. apply Hcounts. exact Hdec.
  - reflexivity.
Qed.

(** Two devices on one resolver whose count is 2: [Disable] of the first
    makes no resolver call, [Destroy] of the second decrements without
    restoring, and [Destroy] of the first decrements and restores: one
    [Restore] in all, after the last decrement. *)
Theorem shared_resolver_is_restored_once
    (dA dB : NetCfgDevice) conn senderA senderB params (s : state) (h : handle) :
  resolver dA = Some h ->
  resolver dB = Some h ->
  GetDeviceCount (heap s h) = 2%nat ->
  GetUID host senderA = owner dA ->
  GetUID host senderB = owner dB ->
  let r1 := callback_method_call host dA conn senderA "Disable" params s in
  let r2 := callback_method_call host dB conn senderB "Destroy" params (run_state r1) in
  let r3 := callback_method_call host dA conn senderA "Destroy" params (run_state r2) in
  resolver_calls (run_trace r1 ++ run_trace r2 ++ run_trace r3) =
  [(h, CallDecDeviceCount); (h, CallDecDeviceCount); (h, CallRestore)]
  /\ GetDeviceCount (heap (run_state r3) h) = 0%nat.
Proof.
  intros HresA HresB Hcount HownerA HownerB.
  apply N.eqb_eq in HownerA. apply N.eqb_eq in HownerB. cbv zeta.
  rewrite Disable_run, HresA, Hcount. cbn [Nat.leb run_state run_trace fst snd].
  rewrite Destroy_run, HresB, HownerB. cbv zeta.
  assert (Hdec1 : GetDeviceCount (DecDeviceCount (heap s h)) = 1%nat).
  { pose proof (count_Dec (heap s h)) as Hd. rewrite Hcount in Hd.
    specialize (Hd Nat.lt_0_2). lia. }
  rewrite Hdec1. cbn [Nat.eqb run_state run_trace fst snd heap].
  rewrite Destroy_run, HresA, HownerA. cbv zeta. cbn [heap].
  rewrite update_same.
  assert (Hdec2 : GetDeviceCount (DecDeviceCount (DecDeviceCount (heap s h))) = 0%nat).
  { pose proof (count_Dec (DecDeviceCount (heap s h))) as Hd. rewrite Hdec1 in Hd.
    specialize (Hd Nat.lt_0_1). lia. }
  rewrite Hdec2. cbn [Nat.eqb run_state run_trace fst snd heap].
  rewrite update_same, count_Restore, Hdec2.
  split; [|reflexivity].
  destruct (snd (Restore (DecDeviceCount (DecDeviceCount (heap s h))))); reflexivity.
Qed.

End Sequences.

(** ** The further facts on the concrete services *)

Module MoreRuns.

Import Scenario.

(** A stub, a DNS method, [Disable] and a denied [Destroy] are each
    answered once. *)
Lemma one_reply_per_call_witness :
  Forall (fun call =>
            replies (run_trace (callback_method_call host tun0 conn (fst call) (snd call)
                                  (GVStrv ["10.8.0.53"]) start_failing)) = 1%nat)
         [(":1.42", "AddRoutes"); (":1.42", "AddDNS"); (":1.42", "Disable");
          (":1.7", "Destroy")].
Proof.
  repeat (apply Forall_cons;
          [apply (one_reply_per_call host tun0 conn); discriminate|]).
  apply Forall_nil.
Defined.

(** [Disable] sent by the owner and by somebody else. *)
Lemma sender_is_checked_by_destroy_only_witness :
  callback_method_call host tun0 conn ":1.42" "Disable" (GVStrv []) start =
  callback_method_call host tun0 conn ":1.7" "Disable" (GVStrv []) start
  /\ callback_get_property tun0 ":1.42" "log_level" start =
     callback_get_property tun0 ":1.7" "log_level" start
  /\ callback_set_property tun0 ":1.42" "log_level" (GVUInt32 5) start =
     callback_set_property tun0 ":1.7" "log_level" (GVUInt32 5) start.
Proof.
  apply (sender_is_checked_by_destroy_only host tun0 conn ":1.42" ":1.7" "Disable"
           (GVStrv []) "log_level" (GVUInt32 5) start).
  discriminate.
Defined.

(** [RemoveDNS] on the resolver at address 0. *)
Lemma dns_method_delegates_witness :
  callback_method_call host tun0 conn ":1.42" "RemoveDNS" (GVStrv ["10.8.0.1"]) start =
  (Ret tt,
   mkState (Some tun0)
     (update 0 (fst (RemoveDNSServers (GVStrv ["10.8.0.1"]) queued)) (fun _ => queued)),
   [EvIdleCheck_UpdateTimestamp;
    EvResolver 0 (CallRemoveDNSServers (GVStrv ["10.8.0.1"]));
    EvReturnValue]).
Proof.
  exact (dns_method_delegates host tun0 conn ":1.42" (GVStrv ["10.8.0.1"]) start
           "RemoveDNS" CallRemoveDNSServers RemoveDNSServers
           (or_intror (or_introl eq_refl))).
Defined.

(** A write to [mtu]. *)
Lemma only_log_level_is_writable_witness :
  callback_set_property tun0 ":1.42" "mtu" (GVUInt32 1400) start =
  (Throw (DBusPropertyException "mtu" "Invalid property"), start,
   [EvIdleCheck_UpdateTimestamp])
  /\ In ("mtu", "readwrite") introspected_properties.
Proof.
  apply (only_log_level_is_writable tun0 ":1.42" "mtu" (GVUInt32 1400) start).
  discriminate.
Defined.

(** The only device of its resolver is disabled, then destroyed. *)
Lemma disable_then_destroy_restores_twice_witness :
  let r1 := callback_method_call host tun0 conn ":1.42" "Disable" (GVStrv []) start in
  let r2 := callback_method_call host tun0 conn ":1.42" "Destroy" (GVStrv [])
              (run_state r1) in
  resolver_calls (run_trace r1 ++ run_trace r2) =
  [(0%nat, CallRestore); (0%nat, CallDecDeviceCount); (0%nat, CallRestore)]
  /\ self (run_state r2) = None
  /\ GetDeviceCount (heap (run_state r2) 0%nat) = 0%nat.
Proof.
  exact (@disable_then_destroy_restores_twice ResolvConf.t _ ResolvConf_counter host
           tun0 conn ":1.42" (GVStrv []) start 0%nat eq_refl eq_refl eq_refl).
Defined.

(** A device is constructed on a resolver nobody uses, then destroyed. *)
Lemma construct_then_destroy_restores_count_witness :
  let c := NetCfgDevice_new 1000%N "/net/openvpn/v3/netcfg/tun0" TUN "tun0"
             (Some 0%nat) 3%N Shared.empty in
  exists d,
    run_outcome c = Ret d
    /\ let r := callback_method_call host d conn ":1.42" "Destroy" (GVStrv [])
                  (run_state c) in
       self (run_state r) = None
       /\ (forall h', GetDeviceCount (heap (run_state r) h')
                      = GetDeviceCount (heap Shared.empty h'))
       /\ resolver_calls (run_trace c ++ run_trace r) =
          [(0%nat, CallIncDeviceCount); (0%nat, CallDecDeviceCount);
           (0%nat, CallRestore)].
Proof.
  exact (@construct_then_destroy_restores_count ResolvConf.t _ ResolvConf_counter host
           1000%N "/net/openvpn/v3/netcfg/tun0" TUN "tun0" 0%nat 3%N conn ":1.42"
           (GVStrv []) Shared.empty eq_refl).
Defined.

(** Two devices, of uid 1000 and of uid 1001, on the resolver at
    address 0. *)
Lemma shared_resolver_is_restored_once_witness :
  let r1 := callback_method_call host Shared.tunA conn ":1.42" "Disable" (GVStrv [])
              Shared.start in
  let r2 := callback_method_call host Shared.tunB conn ":1.7" "Destroy" (GVStrv [])
              (run_state r1) in
  let r3 := callback_method_call host Shared.tunA conn ":1.42" "Destroy" (GVStrv [])
              (run_state r2) in
  resolver_calls (run_trace r1 ++ run_trace r2 ++ run_trace r3) =
  [(0%nat, CallDecDeviceCount); (0%nat, CallDecDeviceCount); (0%nat, CallRestore)]
  /\ GetDeviceCount (heap (run_state r3) 0%nat) = 0%nat.
Proof.
  exact (@shared_resolver_is_restored_once ResolvConf.t _ ResolvConf_counter host
           Shared.tunA Shared.tunB conn ":1.42" ":1.7" (GVStrv []) Shared.start 0%nat
           eq_refl eq_refl eq_refl eq_refl eq_refl).
Defined.

End MoreRuns.

(** ** The service against the account of its history *)

Section ListFacts.

Context {A B : Type}.
Variable P : A -> B -> Prop.

Lemma Forall2_set_slot (i : nat) (v : A) (w : B) (l : list A) (l' : list B) :
  Forall2 P l l' -> P v w -> Forall2 P (set_slot i v l) (set_slot i w l').
Proof.
  intros Hl Hvw. revert i.
  induction Hl as [|x y l l' Hxy Hl IH]; intros [|i]; cbn [set_slot];
    constructor; auto.
Qed.

Lemma Forall2_nth_error (i : nat) (l : list A) (l' : list B) :
  Forall2 P l l' ->
  match nth_error l i, nth_error l' i with
  | Some x, Some y => P x y
  | None, None => True
  | _, _ => False
  end.
Proof.
  intros Hl. revert i.
  induction Hl as [|x y l l' Hxy Hl IH]; intros [|i]; cbn [nth_error];
    [exact I | exact I | exact Hxy | apply IH].
Qed.

End ListFacts.

Section Simulation.

Context {R : Type} `{ResolverSettings R}.
Variable host : Host.

(** How a method call ends and what is left of the object. *)
Lemma method_call_result
    (d : NetCfgDevice) conn sender method_name params (s : state) :
  let r := callback_method_call host d conn sender method_name params s in
  run_outcome r
  = (if ("Establish" =? method_name) && negb (unix_fd_passing conn)
     then Abort else Ret tt)
  /\ self (run_state r)
     = (if ("Destroy" =? method_name) && (GetUID host sender =? owner d)%N
        then None else self s).
Proof.
  cbv zeta.
  destruct (method_name_cases (R:=R) method_name)
    as [Hstub | [[c [op Hdns]] | [-> | [-> | [-> | Hnot]]]]].
  - cbn [In] in Hstub.
    repeat (destruct Hstub as [<- | Hstub]; [split; reflexivity|]).
    contradiction.
  - dns_cases host d conn sender params s Hdns
      ltac:(destruct (resolver d); split; reflexivity).
  - rewrite Establish_run.
    destruct (unix_fd_passing conn); [|split; reflexivity].
    destruct (resolver d) as [h|]; [|split; reflexivity].
    destruct (GetModified (heap s h)); [|split; reflexivity]. cbv zeta.
    destruct (snd (Apply (heap s h))); split; reflexivity.
  - rewrite Disable_run.
    destruct (resolver d) as [h|]; [|split; reflexivity].
    destruct (GetDeviceCount (heap s h) <=? 1)%nat; split; reflexivity.
  - rewrite Destroy_run.
    destruct (GetUID host sender =? owner d)%N; [|split; reflexivity].
    destruct (resolver d) as [h|]; [|split; reflexivity]. cbv zeta.
    destruct (GetDeviceCount (DecDeviceCount (heap s h)) =? 0)%nat; split; reflexivity.
  - rewrite undispatched_run by exact Hnot.
    undispatched_false Hnot "Establish" method_name.
    undispatched_false Hnot "Destroy" method_name.
    split; reflexivity.
Qed.

(** The registered devices that use a resolver are the outstanding ones
    of the account. *)
Lemma live_count_outstanding (h : handle) (ds : list (option NetCfgDevice))
    (accs : list account) :
  Forall2 accounted ds accs -> live_count h ds = outstanding h accs.
Proof.
  unfold live_count, outstanding.
  induction 1 as [|slot a ds accs Hslot Hrest IH]; [reflexivity|].
  cbn [filter].
  assert (Hsame : uses h slot = counted_by h a).
  { unfold counted_by. destruct slot as [d|]; cbn [accounted uses] in *.
    - destruct Hslot as [-> [_ ->]]. reflexivity.
    - rewrite Hslot. reflexivity. }
  rewrite Hsame. destruct (counted_by h a); cbn [length]; rewrite IH; reflexivity.
Qed.

(** One request: the service and the account stop together, and the
    slots stay accounted for. *)
Lemma history_step_simulates (q : request) (sv : @service R) (accs : list account) :
  Forall2 accounted (devices sv) accs ->
  snd (service_step host q sv) = snd (history_step host q accs)
  /\ Forall2 accounted (devices (fst (service_step host q sv)))
                       (fst (history_step host q accs)).
Proof.
  intros Hsim.
  destruct q as [creator path devtype devname res level
                | dev conn sender method_name params
                | dev sender property_name
                | dev sender property_name value];
    unfold service_step, history_step.
  - rewrite New_run. cbn [fst snd devices]. split; [reflexivity|].
    apply Forall2_app; [exact Hsim|].
    constructor; [|constructor]. cbn. repeat split.
  - pose proof (Forall2_nth_error accounted dev _ _ Hsim) as Hnth.
    destruct (nth_error (devices sv) dev) as [[d|]|] eqn:Hslot;
      destruct (nth_error accs dev) as [a|] eqn:Hacc; try contradiction.
    + cbn [accounted] in Hnth. destruct Hnth as [Halive [Howner Hres]].
      rewrite Halive.
      destruct (method_call_result d conn sender method_name params
                  (mkState (Some d) (resolvers sv))) as [Hout Hself].
      destruct (callback_method_call host d conn sender method_name params
                  (mkState (Some d) (resolvers sv))) as [[o s'] t].
      cbn [run_outcome run_state fst snd self] in Hout, Hself.
      rewrite Howner in Hself.
      destruct (("Destroy" =? method_name) && (GetUID host sender =? acc_owner a)%N)
        eqn:Hdestroy.
      * apply andb_prop in Hdestroy. destruct Hdestroy as [Hname _].
        apply String.eqb_eq in Hname. subst method_name.
        cbn [String.eqb Ascii.eqb Bool.eqb andb] in Hout. subst o.
        cbn [fst snd devices]. split; [reflexivity|]. rewrite Hself.
        apply Forall2_set_slot; [exact Hsim | reflexivity].
      * rewrite Hself, Hout.
        destruct (("Establish" =? method_name) && negb (unix_fd_passing conn));
          cbn [fst snd devices]; (split; [reflexivity|]);
          rewrite set_slot_same by exact Hslot; exact Hsim.
    + cbn [accounted] in Hnth. rewrite Hnth. split; [reflexivity | exact Hsim].
    + split; [reflexivity | exact Hsim].
  - cbn [fst snd].
    destruct (nth_error (devices sv) dev) as [[d|]|] eqn:Hslot;
      try (split; [reflexivity | exact Hsim]).
    pose proof (get_property_unchanged d sender property_name
                  (mkState (Some d) (resolvers sv))) as Hsame.
    unfold unchanged in Hsame.
    destruct (callback_get_property d sender property_name
                (mkState (Some d) (resolvers sv))) as [[o s'] t].
    cbn [run_state fst snd] in Hsame. subst s'. cbn [fst snd devices self].
    split; [reflexivity|]. rewrite set_slot_same by exact Hslot. exact Hsim.
  - cbn [fst snd].
    pose proof (Forall2_nth_error accounted dev _ _ Hsim) as Hnth.
    destruct (nth_error (devices sv) dev) as [[d|]|] eqn:Hslot;
      try (split; [reflexivity | exact Hsim]).
    destruct (nth_error accs dev) as [a|] eqn:Hacc; [|contradiction].
    cbn [accounted] in Hnth. destruct Hnth as [Halive [Howner Hres]].
    destruct (set_property_slot d sender property_name value (resolvers sv))
      as [_ [d' [Hself [Howner' [Hres' _]]]]].
    destruct (callback_set_property d sender property_name value
                (mkState (Some d) (resolvers sv))) as [[o s'] t].
    cbn [run_state fst snd] in Hself. cbn [fst snd devices].
    split; [reflexivity|]. rewrite Hself.
    rewrite <- (set_slot_same dev a accs Hacc).
    apply Forall2_set_slot; [exact Hsim|].
    cbn [accounted]. repeat split; congruence.
Qed.

Lemma history_simulates (qs : list request) (sv : @service R) (accs : list account) :
  Forall2 accounted (devices sv) accs ->
  Forall2 accounted (devices (service_run host qs sv)) (history host qs accs).
Proof.
  revert sv accs. induction qs as [|q qs IH]; intros sv accs Hsim; [exact Hsim|].
  cbn [service_run history].
  destruct (history_step_simulates q sv accs Hsim) as [Hstop Hstep].
  destruct (service_step host q sv) as [sv' aborted].
  destruct (history_step host q accs) as [accs' stopped].
  cbn [fst snd] in Hstop, Hstep. subst stopped.
  destruct aborted; [exact Hstep | apply IH, Hstep].
Qed.

End Simulation.

Section CountProperties.

Context {R : Type} `{ResolverSettings R}.
Variable host : Host.

(** C2.  Whatever requests a service has served (constructions, method
    calls, property reads and writes), the device count of every
    resolver is what it was when the service had no device, plus the
    number of devices the history has constructed with that resolver
    and whose [Destroy] has not completed; the devices still registered
    are those devices.  The count moves in two places only: the
    constructor adds one to the count of the resolver it is given, a
    [Destroy] that passes the owner check takes one from the count of
    the device's resolver; every other method call and every property
    read or write leaves all counts as they are. *)
Theorem refcount_counts_live_devices
    (Hcounter : ResolverCounter R) (qs : list request) (store : handle -> R) :
  let sv := service_run host qs (mkService [] store) in
  let accounts := history host qs [] in
  (forall h, GetDeviceCount (resolvers sv h)
             = (GetDeviceCount (store h) + outstanding h accounts)%nat)
  /\ Forall2 accounted (devices sv) accounts
  /\ (forall creator path devtype devname res level (s : @state R) h,
        GetDeviceCount
          (heap (run_state (NetCfgDevice_new creator path devtype devname res level s)) h)
        = match res with
          | Some h' => if Nat.eqb h' h then S (GetDeviceCount (heap s h))
                       else GetDeviceCount (heap s h)
          | None => GetDeviceCount (heap s h)
          end)
  /\ (forall d conn sender params (s : @state R) h,
        resolver d = Some h ->
        GetUID host sender = owner d ->
        (0 < GetDeviceCount (heap s h))%nat ->
        S (GetDeviceCount
             (heap (run_state (callback_method_call host d conn sender "Destroy" params s)) h))
        = GetDeviceCount (heap s h))
  /\ (forall d conn sender method_name params (s : @state R) h,
        method_name <> "Destroy" ->
        GetDeviceCount
          (heap (run_state (callback_method_call host d conn sender method_name params s)) h)
        = GetDeviceCount (heap s h))
  /\ (forall d sender property_name (s : @state R),
        run_state (callback_get_property d sender property_name s) = s)
  /\ (forall d sender property_name value (s : @state R),
        heap (run_state (callback_set_property d sender property_name value s)) = heap s).
Proof.
  cbv zeta.
  assert (Hsim : Forall2 accounted
                   (devices (service_run host qs (mkService [] store)))
                   (history host qs []))
    by (apply history_simulates; constructor).
  split; [|split; [exact Hsim|split; [|split; [|split; [|split]]]]].
  - intros h. rewrite <- (live_count_outstanding h _ _ Hsim).
    apply (counts_live_run host (fun h => GetDeviceCount (store h))).
    intros h'. cbn [devices resolvers live_count filter length]. lia.
  - intros creator path devtype devname res level s h. rewrite New_run.
    cbn [run_state fst snd heap]. destruct res as [h'|]; [|reflexivity].
    destruct (Nat.eqb_spec h' h) as [->|Hne].
    + rewrite update_same. apply count_Inc.
    + rewrite update_other by exact Hne. reflexivity.
  - intros d conn sender params s h Hres Howner Hpos.
    apply N.eqb_eq in Howner. rewrite Destroy_run, Howner, Hres. cbv zeta.
    destruct (GetDeviceCount (DecDeviceCount (heap s h)) =? 0)%nat;
      cbn [run_state fst snd heap]; rewrite update_same, ?count_Restore;
      apply count_Dec, Hpos.
  - intros d conn sender method_name params s h Hne.
    apply (other_methods_keep host d conn sender method_name params Hne s).
  - intros d sender property_name s.
    apply (get_property_unchanged d sender property_name s).
  - intros d sender property_name value s. rewrite set_property_run.
    destruct (("log_level" =? property_name) && (g_variant_get_uint32 value <=? 6)%N);
      reflexivity.
Qed.

End CountProperties.

Module CountRuns.

Import Scenario.

(** Two devices on one resolver: after every prefix of the requests the
    count of the resolver is the number of devices constructed and not
    yet destroyed. *)
Lemma refcount_counts_live_devices_witness :
  Forall (fun n =>
            let qs := firstn n two_devices in
            GetDeviceCount
              (resolvers (service_run host qs (mkService [] (fun _ => ResolvConf.fresh)))
                         0%nat)
            = (0 + outstanding 0 (history host qs []))%nat)
         [0; 1; 2; 3; 4; 5; 6; 7; 8; 9]%nat.
Proof.
  repeat (apply Forall_cons;
          [exact (proj1 (refcount_counts_live_devices host ResolvConf_counter _
                           (fun _ => ResolvConf.fresh)) 0%nat)|]).
  apply Forall_nil.
Defined.

End CountRuns.
